(** * Signal-driven trading strategies: long-only and long-and-short

    A shallow embedding of [long_strat.py] and [long_and_short_strat.py].
    Both files define a class [MLStrategy] deriving from the host framework's
    strategy base class; the host (broker, data feed, order objects) is
    outside the repository and appears here as an interface.

    Python floats are IEEE-754 binary64 values; they are modelled by the
    Standard Library's [spec_float] with [prec = 53] and [emax = 1024], whose
    operations are ordinary, executable functions. *)

From Stdlib Require Import ZArith List String Ascii Bool Lia.
From Stdlib Require Import Floats.SpecFloat.
From Stdlib Require Import DecimalString.
Import ListNotations.

Open Scope string_scope.
Open Scope Z_scope.

(* ================================================================= *)
(** ** Python values and built-ins used by the strategies *)

Module Py.

Definition float := spec_float.

Definition prec : Z := 53.
Definition emax : Z := 1024.

Definition fzero : float := S754_zero false.

(** [float(n)] for an integer literal (exact for [|n| < 2^53]). *)
Definition of_Z (n : Z) : float := binary_normalize prec emax n 0 false.

(** A decimal literal [n / 10^k] such as [101.5] or [120.4567]: the double
    nearest to it.  Division is correctly rounded, so for [n] and [10^k]
    below [2^53] the quotient of the two exact integers is that double. *)
Definition of_decimal (n : Z) (k : nat) : float :=
  SFdiv prec emax (of_Z n) (of_Z (10 ^ Z.of_nat k)).

(** Comparisons [x > y], [x < y], [x == y]; all false on NaN. *)
Definition gt (x y : float) : bool := SFltb y x.
Definition lt (x y : float) : bool := SFltb x y.
Definition eq (x y : float) : bool := SFeqb x y.

Inductive exn : Type :=
| ZeroDivisionError
| OverflowError
| ValueError.

Inductive result (A : Type) : Type :=
| Ok (a : A)
| Raise (e : exn).
Arguments Ok {A} a.
Arguments Raise {A} e.

Definition rbind {A B : Type} (r : result A) (k : A -> result B) : result B :=
  match r with
  | Ok a => k a
  | Raise e => Raise e
  end.

(** [x / y] on floats: raises on a zero divisor, IEEE division otherwise. *)
Definition truediv (x y : float) : result float :=
  if eq y fzero then Raise ZeroDivisionError
  else Ok (SFdiv prec emax x y).

(** [int(x)]: truncation toward zero; raises on NaN and infinities. *)
Definition int (x : float) : result Z :=
  match x with
  | S754_nan => Raise ValueError
  | S754_infinity _ => Raise OverflowError
  | S754_zero _ => Ok 0
  | S754_finite s m e => Ok (cond_Zopp s (Z.shiftl (Zpos m) e))
  end.

(** [str(n)] for an integer. *)
Definition str_int (n : Z) : string := NilZero.string_of_int (Z.to_int n).

(** Nearest integer to [n / d] for [0 <= n], [0 < d], ties to even. *)
Definition div_half_even (n d : Z) : Z :=
  let q := n / d in
  match (2 * (n mod d) ?= d) with
  | Lt => q
  | Gt => q + 1
  | Eq => if Z.even q then q else q + 1
  end.

(** [|x| * 100] rounded to an integer, for [|x| = m * 2^e]. *)
Definition hundredths (m : positive) (e : Z) : Z :=
  match e with
  | Zneg k => div_half_even (100 * Zpos m) (2 ^ Zpos k)
  | _ => 100 * Zpos m * 2 ^ e
  end.

Definition sign_str (s : bool) : string := if s then "-" else "".

(** Two-digit rendering of [0 <= n < 100]. *)
Definition two_digits (n : Z) : string :=
  str_int (n / 10) ++ str_int (n mod 10).

(** [format(x, '.2f')]: correctly rounded fixed-point with two decimals. *)
Definition format_2f (x : float) : string :=
  match x with
  | S754_nan => "nan"
  | S754_infinity s => sign_str s ++ "inf"
  | S754_zero s => sign_str s ++ "0.00"
  | S754_finite s m e =>
      let h := hundredths m e in
      sign_str s ++ str_int (h / 100) ++ "." ++ two_digits (h mod 100)
  end.

(** [str(x)] for an integral float of magnitude below [10^16], where
    Python prints the integer followed by [.0]. *)
Definition str_integral (x : float) : string :=
  match int x with
  | Ok n =>
      match x with
      | S754_zero s | S754_finite s _ _ => sign_str s ++ str_int (Z.abs n) ++ ".0"
      | _ => "nan"
      end
  | Raise _ => "nan"
  end.

End Py.

Export Py (float, result, Ok, Raise).


(* ================================================================= *)
(** ** The host framework, as the strategies see it *)

(** Order statuses of the host's order objects, in the host's order. *)
Inductive Status : Type :=
| Created | Submitted | Accepted | Partial | Completed
| Canceled | Expired | Margin | Rejected.

Definition status_eqb (a b : Status) : bool :=
  match a, b with
  | Created, Created | Submitted, Submitted | Accepted, Accepted
  | Partial, Partial | Completed, Completed | Canceled, Canceled
  | Expired, Expired | Margin, Margin | Rejected, Rejected => true
  | _, _ => false
  end.

(** [s in [a; b; ...]] *)
Definition status_in (s : Status) (l : list Status) : bool :=
  existsb (status_eqb s) l.

(** The fields of an order notification that [notify_order] reads. *)
Record Order : Type := mkOrder {
  status : Status;
  isbuy : bool;
  executed_price : float;
  executed_value : float;
  executed_comm : float
}.

(** The fields of a trade notification that [notify_trade] reads. *)
Record Trade : Type := mkTrade {
  isclosed : bool;
  pnl : float;
  pnlcomm : float
}.

(** The current bar of [self.datas[0]]: its date in ISO format and the
    three lines the strategies read. *)
Record Bar : Type := mkBar {
  isodate : string;
  bar_open : float;
  bar_close : float;
  bar_predicted : float
}.

(** Requests a strategy makes to the host: [self.buy(size=n)],
    [self.sell(size=n)], [self.close()]. *)
Inductive Intent : Type :=
| Buy (size : Z)
| Sell (size : Z)
| Close.

(** What a callback does that is visible from outside, in order. *)
Inductive Event : Type :=
| Print (line : string)
| Submit (i : Intent).

(** The broker side of the host: available cash, the signed size of the
    current position, and whatever the broker does with a request. *)
Class Broker (B : Type) : Type := {
  getcash : B -> float;
  position_size : B -> Z;
  react : Intent -> B -> B
}.

(** Python's [str] on a float, used for the open and close prices in the
    "CREATED" lines. *)
Class FloatStr : Type := str_float : float -> string.

(** The strategy object together with the host state it reaches through
    [self]: the three attributes set in [__init__], the broker, the current
    bar and everything printed or requested so far. *)
Record Strategy (B : Type) : Type := mkStrategy {
  order : option Order;
  price : option float;
  comm : option float;
  broker : B;
  data0 : Bar;
  journal : list Event
}.
Arguments mkStrategy {B}.
Arguments order {B}.
Arguments price {B}.
Arguments comm {B}.
Arguments broker {B}.
Arguments data0 {B}.
Arguments journal {B}.

(** [__init__]: no order, no price, no commission. *)
Definition init {B : Type} (b : B) (bar : Bar) : Strategy B :=
  mkStrategy None None None b bar [].

Definition set_order {B} (o : option Order) (s : Strategy B) : Strategy B :=
  mkStrategy o (price s) (comm s) (broker s) (data0 s) (journal s).

Definition set_price {B} (p : float) (s : Strategy B) : Strategy B :=
  mkStrategy (order s) (Some p) (comm s) (broker s) (data0 s) (journal s).

Definition set_comm {B} (c : float) (s : Strategy B) : Strategy B :=
  mkStrategy (order s) (price s) (Some c) (broker s) (data0 s) (journal s).

Definition emit {B} (e : Event) (s : Strategy B) : Strategy B :=
  mkStrategy (order s) (price s) (comm s) (broker s) (data0 s) (journal s ++ [e]).

Definition request {B} `{Broker B} (i : Intent) (s : Strategy B) : Strategy B :=
  mkStrategy (order s) (price s) (comm s) (react i (broker s)) (data0 s)
             (journal s ++ [Submit i]).

(** *** Callbacks as state-and-exception computations *)

Definition M (B A : Type) : Type := Strategy B -> result (A * Strategy B).

Definition ret {B A} (a : A) : M B A := fun s => Ok (a, s).

Definition bind {B A C} (c : M B A) (k : A -> M B C) : M B C :=
  fun s => match c s with
           | Ok (a, s') => k a s'
           | Raise e => Raise e
           end.

Definition lift {B A} (r : result A) : M B A :=
  fun s => match r with
           | Ok a => Ok (a, s)
           | Raise e => Raise e
           end.

Definition gets {B A} (f : Strategy B -> A) : M B A := fun s => Ok (f s, s).

Definition modify {B} (f : Strategy B -> Strategy B) : M B unit :=
  fun s => Ok (tt, f s).

Declare Scope py_scope.
Delimit Scope py_scope with py.
Notation "x <- c ;; k" := (bind c (fun x => k))
  (at level 61, c at next level, right associativity) : py_scope.
Notation "c ;; k" := (bind c (fun _ => k))
  (at level 61, right associativity) : py_scope.
Open Scope py_scope.

(** The "all-in" size, [int(self.broker.getcash() / self.datas[0].open)]. *)
Definition all_in_size (cash open : float) : result Z :=
  Py.rbind (Py.truediv cash open) Py.int.

(** [self.log(txt)]: prints the bar's ISO date, a comma and the text. *)
Definition log {B} (txt : string) : M B unit :=
  fun s => Ok (tt, emit (Print (isodate (data0 s) ++ ", " ++ txt)) s).

Definition buy {B} `{Broker B} (size : Z) : M B unit := modify (request (Buy size)).
Definition sell {B} `{Broker B} (size : Z) : M B unit := modify (request (Sell size)).
Definition close {B} `{Broker B} : M B unit := modify (request Close).

(** The message texts. *)
Definition executed_msg (side : string) (o : Order) : string :=
  side ++ " EXECUTED --- Price: " ++ Py.format_2f (executed_price o)
       ++ ", Cost: " ++ Py.format_2f (executed_value o)
       ++ ", Commission: " ++ Py.format_2f (executed_comm o).

Definition created_msg `{FloatStr} (side : string) (size : Z) (cash : float) (bar : Bar) : string :=
  side ++ " CREATED --- Size: " ++ Py.str_int size
       ++ ", Cash: " ++ Py.format_2f cash
       ++ ", Open: " ++ str_float (bar_open bar)
       ++ ", Close: " ++ str_float (bar_close bar).

Definition result_msg (t : Trade) : string :=
  "OPERATION RESULT --- Gross: " ++ Py.format_2f (pnl t)
       ++ ", Net: " ++ Py.format_2f (pnlcomm t).

Section Readers.
Context {B : Type} `{Broker B}.

(** [self.broker.getcash()] *)
Definition broker_getcash : M B float := gets (fun s => getcash (broker s)).

(** [self.position.size]; [not self.position] is [size == 0]. *)
Definition self_position_size : M B Z := gets (fun s => position_size (broker s)).

(** [self.datas[0]] at the current bar. *)
Definition self_data : M B Bar := gets data0.
End Readers.

(* ================================================================= *)
(** ** [long_strat.py]: the long-only strategy *)

Module LongStrat.
Section Callbacks.
Context {B : Type} `{Broker B} `{FloatStr}.

Definition notify_order (o : Order) : M B unit :=
  if status_in (status o) [Submitted; Accepted] then
    ret tt
  else
    (if status_in (status o) [Completed] then
       if isbuy o then
         log (executed_msg "BUY" o) ;;
         modify (set_price (executed_price o)) ;;
         modify (set_comm (executed_comm o))
       else
         log (executed_msg "SELL" o)
     else if status_in (status o) [Canceled; Margin; Rejected] then
       log "Order Failed"
     else
       ret tt) ;;
    modify (set_order None).

Definition notify_trade (t : Trade) : M B unit :=
  if negb (isclosed t) then
    ret tt
  else
    log (result_msg t).

Definition next_open : M B unit :=
  pos <- self_position_size ;;
  bar <- self_data ;;
  if pos =? 0 then
    if Py.gt (bar_predicted bar) (Py.of_Z 0) then
      cash <- broker_getcash ;;
      size <- lift (all_in_size cash (bar_open bar)) ;;
      cash' <- broker_getcash ;;
      log (created_msg "LONG" size cash' bar) ;;
      buy size
    else
      ret tt
  else
    if Py.lt (bar_predicted bar) (Py.of_Z 0) then
      held <- self_position_size ;;
      log ("SELL CREATED --- Size: " ++ Py.str_int held) ;;
      held' <- self_position_size ;;
      sell held'
    else
      ret tt.

End Callbacks.
End LongStrat.

(* ================================================================= *)
(** ** [long_and_short_strat.py]: the long-and-short strategy *)

Module LongShortStrat.
Section Callbacks.
Context {B : Type} `{Broker B} `{FloatStr}.

Definition notify_order (o : Order) : M B unit :=
  if status_in (status o) [Submitted; Accepted] then
    ret tt
  else
    (if status_in (status o) [Canceled; Margin; Rejected] then
       log "Order Failed"
     else
       ret tt) ;;
    modify (set_order None).

Definition notify_trade (t : Trade) : M B unit :=
  if negb (isclosed t) then
    ret tt
  else
    log (result_msg t).

Definition next_open : M B unit :=
  cash <- broker_getcash ;;
  bar <- self_data ;;
  size <- lift (all_in_size cash (bar_open bar)) ;;
  pos <- self_position_size ;;
  if pos =? 0 then
    if Py.gt (bar_predicted bar) (Py.of_Z 0) then
      cash' <- broker_getcash ;;
      log (created_msg "LONG" size cash' bar) ;;
      buy size
    else if Py.lt (bar_predicted bar) (Py.of_Z 0) then
      cash' <- broker_getcash ;;
      log (created_msg "SHORT" size cash' bar) ;;
      sell size
    else
      ret tt
  else
    if pos >? 0 then
      if Py.lt (bar_predicted bar) (Py.of_Z 0) then
        held <- self_position_size ;;
        log ("CLOSE LONG POSITION --- Size: " ++ Py.str_int held) ;;
        close ;;
        sell size
      else
        ret tt
    else if pos <? 0 then
      if Py.gt (bar_predicted bar) (Py.of_Z 0) then
        held <- self_position_size ;;
        log ("CLOSE SHORT POSITION --- Size: " ++ Py.str_int (Z.abs held)) ;;
        close ;;
        buy size
      else
        ret tt
    else
      ret tt.

End Callbacks.
End LongShortStrat.

(* ================================================================= *)
(** ** Vocabulary of the specification *)

(** [math.floor(x)] on a binary64 value: the largest integer not above
    it; like [int] it has no value on NaN and infinities.  Applied to the
    quotient the code computes, this is the floor of the rounded quotient,
    not the floor of the exact one, which is [exact_floor_div]. *)
Definition floor (x : float) : result Z :=
  match x with
  | S754_nan => Raise Py.ValueError
  | S754_infinity _ => Raise Py.OverflowError
  | S754_zero _ => Ok 0
  | S754_finite s m e => Ok (Z.shiftl (cond_Zopp s (Zpos m)) e)
  end.

(** [floor(cash / referencePrice)] as the specification's sizing contract
    states it, over the reals: the floor of the exact quotient of the two
    values [mx * 2^ex] and [my * 2^ey], with no rounding in between. *)
Definition exact_floor_div (cash price : float) : option Z :=
  match cash, price with
  | S754_finite sx mx ex, S754_finite sy my ey =>
      let num := cond_Zopp (xorb sx sy) (Zpos mx) in
      Some (if ey <=? ex
            then (num * 2 ^ (ex - ey)) / Zpos my
            else num / (Zpos my * 2 ^ (ey - ex)))
  | S754_zero _, S754_finite _ _ _ => Some 0
  | _, _ => None
  end.

(** The state after a callback that left the attributes and the bar alone,
    moved the broker to [b'] and added [evs] to the journal. *)
Definition after {B} (s : Strategy B) (b' : B) (evs : list Event) : Strategy B :=
  mkStrategy (order s) (price s) (comm s) b' (data0 s) (journal s ++ evs).

(** The line [self.log(txt)] prints in state [s]. *)
Definition line_of {B} (s : Strategy B) (txt : string) : Event :=
  Print (isodate (data0 s) ++ ", " ++ txt).

(** The message patterns the specification enumerates for the logging sink. *)
Inductive listed_message `{FloatStr} : string -> Prop :=
| ListedLongCreated (n : Z) (c : float) (bar : Bar) :
    listed_message (created_msg "LONG" n c bar)
| ListedShortCreated (n : Z) (c : float) (bar : Bar) :
    listed_message (created_msg "SHORT" n c bar)
| ListedCloseLong (n : Z) :
    listed_message ("CLOSE LONG POSITION --- Size: " ++ Py.str_int n)
| ListedCloseShort (n : Z) :
    listed_message ("CLOSE SHORT POSITION --- Size: " ++ Py.str_int n)
| ListedBuyExecuted (o : Order) :
    listed_message (executed_msg "BUY" o)
| ListedSellExecuted (o : Order) :
    listed_message (executed_msg "SELL" o)
| ListedOrderFailed :
    listed_message "Order Failed"
| ListedOperationResult (t : Trade) :
    listed_message (result_msg t).

(** The messages the two files do emit: the listed ones and the long-only
    exit line. *)
Definition emitted_message `{FloatStr} (msg : string) : Prop :=
  listed_message msg \/ exists n : Z, msg = "SELL CREATED --- Size: " ++ Py.str_int n.

(** An event is a well-formed log line for the bar of [s], with a message
    satisfying [P]; requests to the broker are not log lines. *)
Definition log_line_with {B} (P : string -> Prop) (s : Strategy B) (e : Event) : Prop :=
  match e with
  | Print line => exists msg, line = isodate (data0 s) ++ ", " ++ msg /\ P msg
  | Submit _ => True
  end.

(** The six entry points the host calls. *)
Inductive Callback : Type :=
| LongNotifyOrder (o : Order)
| LongNotifyTrade (t : Trade)
| LongNextOpen
| LongShortNotifyOrder (o : Order)
| LongShortNotifyTrade (t : Trade)
| LongShortNextOpen.

Definition run {B} `{Broker B} `{FloatStr} (cb : Callback) : M B unit :=
  match cb with
  | LongNotifyOrder o => LongStrat.notify_order o
  | LongNotifyTrade t => LongStrat.notify_trade t
  | LongNextOpen => LongStrat.next_open
  | LongShortNotifyOrder o => LongShortStrat.notify_order o
  | LongShortNotifyTrade t => LongShortStrat.notify_trade t
  | LongShortNextOpen => LongShortStrat.next_open
  end.

(** *** Invariant used for the rounding steps of float division *)

(** The record [shr] works on holds the quotient of [N] by [D], and its
    round bit is set only when the remainder is at least half of [D]. *)
Definition holds_quotient (N D : Z) (mrs : shr_record) : Prop :=
  0 < D /\ 0 <= N /\ shr_m mrs = N / D /\ (shr_r mrs = true -> D <= 2 * (N mod D)).

(* ================================================================= *)
(** ** Two concrete brokers *)

(** A broker that only queues requests, as the host's simulator does: cash
    and position move when it executes them, after the callback returned. *)
Record Account : Type := mkAccount {
  acc_cash : float;
  acc_held : Z
}.

#[export] Instance queueing : Broker Account := {
  getcash := acc_cash;
  position_size := acc_held;
  react := fun _ a => a
}.

(** A broker that settles every request at once at a fixed price. *)
Record Till : Type := mkTill {
  till_cash : float;
  till_held : Z;
  till_price : float
}.

Definition till_move (qty : Z) (t : Till) : Till :=
  mkTill (SFsub Py.prec Py.emax (till_cash t)
                (SFmul Py.prec Py.emax (Py.of_Z qty) (till_price t)))
         (till_held t + qty)
         (till_price t).

#[export] Instance settling : Broker Till := {
  getcash := till_cash;
  position_size := till_held;
  react := fun i t =>
             match i with
             | Buy n => till_move n t
             | Sell n => till_move (- n) t
             | Close => till_move (- till_held t) t
             end
}.

(** Float printing on the integral prices of the examples below. *)
#[export] Instance integral_prices : FloatStr := Py.str_integral.

(** *** Example inputs *)

(** A bar with a bullish forecast and one with a bearish forecast. *)
Definition bar_bullish : Bar := mkBar "2024-01-02" (Py.of_Z 33) (Py.of_Z 34) (Py.of_Z 2).
Definition bar_bearish : Bar := mkBar "2024-01-03" (Py.of_Z 50) (Py.of_Z 49) (Py.of_Z (-1)).

(** Flat with cash 100; flat with cash 20, below either open price; long 5
    shares; short 4 shares. *)
Definition flat_100 (bar : Bar) : Strategy Account := init (mkAccount (Py.of_Z 100) 0) bar.
Definition flat_20 (bar : Bar) : Strategy Account := init (mkAccount (Py.of_Z 20) 0) bar.
Definition long_5 (bar : Bar) : Strategy Account := init (mkAccount (Py.of_Z 100) 5) bar.
Definition short_4 (bar : Bar) : Strategy Account := init (mkAccount (Py.of_Z 100) (-4)) bar.

(** Long 10 shares with cash 100 at a broker that settles at once at 50. *)
Definition long_10_settling : Strategy Till :=
  init (mkTill (Py.of_Z 100) 10 (Py.of_Z 50)) bar_bearish.

(** A completed buy at 101.5, value 10000, commission 5, and the same fill
    on the sell side; a rejected order; a partially filled order. *)
Definition completed_buy : Order :=
  mkOrder Completed true (Py.of_decimal 1015 1) (Py.of_Z 10000) (Py.of_Z 5).
Definition completed_sell : Order :=
  mkOrder Completed false (Py.of_decimal 1015 1) (Py.of_Z 10000) (Py.of_Z 5).
Definition rejected_order : Order :=
  mkOrder Rejected true Py.fzero Py.fzero Py.fzero.
Definition partial_order : Order :=
  mkOrder Partial true (Py.of_decimal 1015 1) (Py.of_Z 5000) (Py.of_Z 5).

(** A closed trade with gross 120.4567 and net 110.1. *)
Definition closed_trade : Trade :=
  mkTrade true (Py.of_decimal 1204567 4) (Py.of_decimal 1101 1).

(** A bar that opens and closes at 0.1, and [str] on the prices used with
    it: Python prints 0.1 as [0.1]. *)
Definition bar_tenth : Bar :=
  mkBar "2024-01-08" (Py.of_decimal 1 1) (Py.of_decimal 1 1) (Py.of_Z 2).

Definition str_tenth : FloatStr :=
  fun x => if Py.eq x (Py.of_decimal 1 1) then "0.1" else Py.str_integral x.

(** Flat with cash 0.5 at that bar; flat with cash -100; flat with the
    largest float as cash at a bar that opens at the smallest one. *)
Definition flat_half : Strategy Account :=
  init (mkAccount (Py.of_decimal 5 1) 0) bar_tenth.
Definition flat_minus_100 : Strategy Account :=
  init (mkAccount (Py.of_Z (-100)) 0) bar_bullish.
Definition flat_overflow : Strategy Account :=
  init (mkAccount (SFmax_float Py.prec Py.emax) 0)
       (mkBar "2024-01-09" (S754_finite false 1 (-1074)) (Py.of_Z 1) (Py.of_Z 2)).

(** The reversal claim in its original wording, for a long position: a
    CLOSE then a SELL whose quantity is the all-in size of the cash read
    after the CLOSE was requested. *)
Definition reopens_with_cash_after_close {B} `{Broker B} `{FloatStr}
    (s : Strategy B) : Prop :=
  exists (line : string) (n : Z),
    LongShortStrat.next_open s
      = Ok (tt, after s (react (Sell n) (react Close (broker s)))
                        [Print line; Submit Close; Submit (Sell n)])
    /\ all_in_size (getcash (react Close (broker s))) (bar_open (data0 s)) = Ok n.

(* ================================================================= *)
(** ** Runs of the host *)

(** Between two callbacks the host moves on: it executes queued requests
    and advances the feed, which the strategy sees as another broker state
    and another current bar.  The three attributes and what was printed or
    requested so far are the strategy's own and stay. *)
Definition host_move {B} (b : B) (bar : Bar) (s : Strategy B) : Strategy B :=
  mkStrategy (order s) (price s) (comm s) b bar (journal s).

(** One step of a run: the host calls an entry point or moves on. *)
Inductive Step (B : Type) : Type :=
| Call (cb : Callback)
| Host (b : B) (bar : Bar).
Arguments Call {B} cb.
Arguments Host {B} b bar.

(** A run; an exception raised by a callback ends it. *)
Fixpoint exec {B} `{Broker B} `{FloatStr} (steps : list (Step B)) (s : Strategy B)
    : result (Strategy B) :=
  match steps with
  | [] => Ok s
  | Call cb :: rest =>
      match run cb s with
      | Ok (_, s') => exec rest s'
      | Raise e => Raise e
      end
  | Host b bar :: rest => exec rest (host_move b bar s)
  end.

(** A completed buy notification. *)
Definition is_completed_buy (o : Order) : bool :=
  status_in (status o) [Completed] && isbuy o.

(** The last completed buy the long-only [notify_order] was called with
    during a run, if any. *)
Fixpoint last_long_fill {B} (steps : list (Step B)) : option Order :=
  match steps with
  | [] => None
  | st :: rest =>
      match last_long_fill rest with
      | Some o => Some o
      | None =>
          match st with
          | Call (LongNotifyOrder o) => if is_completed_buy o then Some o else None
          | _ => None
          end
      end
  end.

(** Callbacks of the long-and-short file only. *)
Definition long_short_step {B} (st : Step B) : bool :=
  match st with
  | Call (LongShortNotifyOrder _) | Call (LongShortNotifyTrade _)
  | Call LongShortNextOpen | Host _ _ => true
  | Call _ => false
  end.

(** The bars the host installs during a run. *)
Fixpoint bars_of {B} (steps : list (Step B)) : list Bar :=
  match steps with
  | [] => []
  | Host _ bar :: rest => bar :: bars_of rest
  | Call _ :: rest => bars_of rest
  end.

(** The requests among some events, in order, and the broker after it
    reacted to a list of requests. *)
Fixpoint requests (evs : list Event) : list Intent :=
  match evs with
  | [] => []
  | Submit i :: rest => i :: requests rest
  | Print _ :: rest => requests rest
  end.

Definition settle {B} `{Broker B} (intents : list Intent) (b : B) : B :=
  fold_left (fun b' i => react i b') intents b.

(** [self.buy] or [self.sell], as opposed to [self.close]. *)
Definition opens (i : Intent) : bool :=
  match i with
  | Buy _ | Sell _ => true
  | Close => false
  end.

(** The four shapes of what one callback adds to the journal. *)
Definition callback_shape (evs : list Event) : Prop :=
  evs = []
  \/ (exists line, evs = [Print line])
  \/ (exists line i, opens i = true /\ evs = [Print line; Submit i])
  \/ (exists line i, opens i = true /\ evs = [Print line; Submit Close; Submit i]).

(** Negation and finiteness of floats; mapping over a result. *)
Definition fneg (x : float) : float := SFopp x.

Definition is_finite (x : float) : bool :=
  match x with
  | S754_zero _ | S754_finite _ _ _ => true
  | S754_infinity _ | S754_nan => false
  end.

Definition is_nan (x : float) : bool :=
  match x with
  | S754_nan => true
  | _ => false
  end.

Definition rmap {A C : Type} (f : A -> C) (r : result A) : result C :=
  match r with
  | Ok a => Ok (f a)
  | Raise e => Raise e
  end.

(** A line of a run: printed with the date of one of [bars]. *)
Definition line_in_run `{FloatStr} (bars : list Bar) (e : Event) : Prop :=
  match e with
  | Print line =>
      exists bar msg, In bar bars /\ line = isodate bar ++ ", " ++ msg
                      /\ emitted_message msg
  | Submit _ => True
  end.

(** *** Example runs *)

(** A bar whose forecast is NaN and a bar whose open price is zero. *)
Definition bar_nan : Bar := mkBar "2024-01-04" (Py.of_Z 50) (Py.of_Z 50) S754_nan.
Definition bar_zero_open : Bar := mkBar "2024-01-05" (Py.of_Z 0) (Py.of_Z 1) (Py.of_Z 2).

(** A round trip of the long-only file and a run of the long-and-short
    file, with the host filling the requests in between. *)
Definition long_steps : list (Step Account) :=
  [Call LongNextOpen;
   Host (mkAccount (Py.of_Z 1) 3) bar_bullish; Call (LongNotifyOrder completed_buy);
   Host (mkAccount (Py.of_Z 1) 3) bar_bearish; Call LongNextOpen;
   Host (mkAccount (Py.of_Z 151) 0) bar_bearish; Call (LongNotifyOrder completed_sell);
   Call (LongNotifyTrade closed_trade)].

Definition long_short_steps : list (Step Account) :=
  [Call LongShortNextOpen;
   Host (mkAccount (Py.of_Z 1) 3) bar_bullish; Call (LongShortNotifyOrder completed_buy);
   Host (mkAccount (Py.of_Z 1) 3) bar_bearish; Call LongShortNextOpen;
   Call (LongShortNotifyOrder rejected_order); Call (LongShortNotifyTrade closed_trade)].

(** The state a run ended in ([s0] when it raised). *)
Definition outcome {B} (r : result (Strategy B)) (s0 : Strategy B) : Strategy B :=
  match r with
  | Ok s => s
  | Raise _ => s0
  end.

(* ================================================================= *)
(** ** Basic facts about the state operations *)

Section StateFacts.
Context {B : Type} `{Broker B}.

Lemma emit_after (e : Event) (s : Strategy B) :
  emit e s = after s (broker s) [e].
Proof. reflexivity. Qed.

Lemma request_after (i : Intent) (s : Strategy B) (evs : list Event) (b : B) :
  request i (after s b evs) = after s (react i b) (evs ++ [Submit i]).
Proof.
  unfold request, after; simpl. now rewrite <- app_assoc.
Qed.

End StateFacts.

Lemma status_in_cases (st : Status) :
  status_in st [Submitted; Accepted] = true
  \/ st = Completed
  \/ status_in st [Canceled; Margin; Rejected] = true
  \/ (st = Created \/ st = Partial \/ st = Expired).
Proof. destruct st; simpl; intuition. Qed.

Ltac callback_unfold :=
  unfold LongStrat.notify_order, LongShortStrat.notify_order,
         LongStrat.notify_trade, LongShortStrat.notify_trade,
         bind, ret, log, modify, gets, lift, line_of.

(* ================================================================= *)
(** ** Order notifications *)

Section NotifyOrder.
Context {B : Type} `{Broker B} `{FloatStr}.

(** The long-only file reports a fill: one line, BUY or SELL by the side
    of the order; a buy also stores its price and commission. *)
Lemma long_completed_reported (o : Order) (s : Strategy B) :
  status o = Completed ->
  LongStrat.notify_order o s
  = Ok (tt,
        if isbuy o then
          mkStrategy None (Some (executed_price o)) (Some (executed_comm o))
                     (broker s) (data0 s)
                     (journal s ++ [line_of s (executed_msg "BUY" o)])
        else
          mkStrategy None (price s) (comm s) (broker s) (data0 s)
                     (journal s ++ [line_of s (executed_msg "SELL" o)])).
Proof.
  intros Hst. callback_unfold. rewrite Hst. simpl.
  destruct (isbuy o); reflexivity.
Qed.

(** C4, long-and-short file: a COMPLETED notification prints nothing and
    stores neither price nor commission; it only clears the order
    attribute. *)
Theorem long_short_completed_unreported (o : Order) (s : Strategy B)
    (Hst : status o = Completed) :
  LongShortStrat.notify_order o s = Ok (tt, set_order None s).
Proof.
  callback_unfold. rewrite Hst. reflexivity.
Qed.

(** C5: CANCELED, MARGIN and REJECTED are handled alike in both files:
    the one line "Order Failed" is printed, the order attribute becomes
    [None], nothing is requested from the broker, and the broker (cash and
    position), the stored price and the stored commission stay as they
    were. *)
Theorem failed_order_logged_and_cleared (o : Order) (s : Strategy B)
    (Hfail : status_in (status o) [Canceled; Margin; Rejected] = true) :
  let s' := mkStrategy None (price s) (comm s) (broker s) (data0 s)
                       (journal s ++ [Print (isodate (data0 s) ++ ", Order Failed")]) in
  LongStrat.notify_order o s = Ok (tt, s')
  /\ LongShortStrat.notify_order o s = Ok (tt, s').
Proof.
  callback_unfold.
  destruct (status o); simpl in Hfail; try discriminate Hfail;
    simpl; split; reflexivity.
Qed.

(** C9: any status other than Submitted or Accepted makes both files
    return normally with the order attribute [None]; for a status outside
    Completed, Canceled, Margin and Rejected (Created, Partial, Expired)
    that is all that happens, in both files; in the long-and-short file
    the same holds for every status that is not a failure. *)
Theorem other_statuses_clear_order (o : Order) (s : Strategy B)
    (Hterm : status_in (status o) [Submitted; Accepted] = false) :
  (exists s1, LongStrat.notify_order o s = Ok (tt, s1) /\ order s1 = None)
  /\ (exists s2, LongShortStrat.notify_order o s = Ok (tt, s2) /\ order s2 = None)
  /\ (status_in (status o) [Completed; Canceled; Margin; Rejected] = false ->
      LongStrat.notify_order o s = Ok (tt, set_order None s)
      /\ LongShortStrat.notify_order o s = Ok (tt, set_order None s))
  /\ (status_in (status o) [Canceled; Margin; Rejected] = false ->
      LongShortStrat.notify_order o s = Ok (tt, set_order None s)).
Proof.
  callback_unfold.
  destruct (status o); simpl in Hterm; try discriminate Hterm; simpl;
    (split; [ destruct (isbuy o); eexists; split; reflexivity
            | split; [ eexists; split; reflexivity
                     | split; intros Hn; try discriminate Hn;
                       try split; reflexivity ] ]).
Qed.

(** Submitted and Accepted leave everything as it is. *)
Lemma transient_status_ignored (o : Order) (s : Strategy B) :
  status_in (status o) [Submitted; Accepted] = true ->
  LongStrat.notify_order o s = Ok (tt, s)
  /\ LongShortStrat.notify_order o s = Ok (tt, s).
Proof.
  intros Hin. callback_unfold. rewrite Hin. split; reflexivity.
Qed.

End NotifyOrder.

(* ================================================================= *)
(** ** Trade notifications *)

Section NotifyTrade.
Context {B : Type} `{Broker B} `{FloatStr}.

(** C7: in both files a closed trade prints exactly one line, the gross
    and net result with two decimals, and changes nothing else; a trade
    that is still open leaves the whole state untouched.  Gross 120.4567
    and net 110.1 give the text of the specification's example. *)
Theorem trade_report (t : Trade) (s : Strategy B) :
  (isclosed t = true ->
     let s' := after s (broker s)
                 [Print (isodate (data0 s) ++ ", OPERATION RESULT --- Gross: "
                         ++ Py.format_2f (pnl t) ++ ", Net: "
                         ++ Py.format_2f (pnlcomm t))] in
     LongStrat.notify_trade t s = Ok (tt, s')
     /\ LongShortStrat.notify_trade t s = Ok (tt, s'))
  /\ (isclosed t = false ->
        LongStrat.notify_trade t s = Ok (tt, s)
        /\ LongShortStrat.notify_trade t s = Ok (tt, s))
  /\ result_msg (mkTrade true (Py.of_decimal 1204567 4) (Py.of_decimal 1101 1))
     = "OPERATION RESULT --- Gross: 120.46, Net: 110.10".
Proof.
  split; [ | split ].
  - intros Hc. callback_unfold. rewrite Hc. split; reflexivity.
  - intros Hc. callback_unfold. rewrite Hc. split; reflexivity.
  - vm_compute. reflexivity.
Qed.

End NotifyTrade.

(* ================================================================= *)
(** ** Position sizing *)

Lemma binary_round_aux_sign (s : bool) (m e : Z) (l : location) :
  match binary_round_aux Py.prec Py.emax s m e l with
  | S754_zero s' | S754_infinity s' | S754_finite s' _ _ => s' = s
  | S754_nan => True
  end.
Proof.
  unfold binary_round_aux.
  destruct (shr_fexp Py.prec Py.emax m e l) as [mrs1 e1].
  destruct (shr_fexp Py.prec Py.emax _ e1 loc_Exact) as [mrs2 e2].
  destruct (shr_m mrs2); trivial.
  destruct (e2 <=? Py.emax - Py.prec); trivial.
Qed.

Lemma gt_zero_cases (x : float) :
  Py.gt x Py.fzero = true ->
  x = S754_infinity false \/ exists m e, x = S754_finite false m e.
Proof.
  destruct x as [s | s | | s m e]; try destruct s; try discriminate; eauto.
Qed.

Lemma lt_zero_cases (x : float) :
  Py.lt x Py.fzero = true ->
  x = S754_infinity true \/ exists m e, x = S754_finite true m e.
Proof.
  destruct x as [s | s | | s m e]; try destruct s; try discriminate; eauto.
Qed.

Lemma gt_zero_not_eq_zero (x : float) :
  Py.gt x Py.fzero = true -> Py.eq x Py.fzero = false.
Proof.
  intros Hx. destruct (gt_zero_cases x Hx) as [-> | (m & e & ->)]; reflexivity.
Qed.

(** A quotient of two positive floats is never negative. *)
Lemma div_pos_pos_sign (x y : float) :
  Py.gt x Py.fzero = true -> Py.gt y Py.fzero = true ->
  match SFdiv Py.prec Py.emax x y with
  | S754_zero s | S754_infinity s | S754_finite s _ _ => s = false
  | S754_nan => True
  end.
Proof.
  intros Hx Hy.
  destruct (gt_zero_cases x Hx) as [-> | (mx & ex & ->)];
    destruct (gt_zero_cases y Hy) as [-> | (my & ey & ->)];
    try exact I; try reflexivity.
  unfold SFdiv.
  destruct (SFdiv_core_binary Py.prec Py.emax (Z.pos mx) ex (Z.pos my) ey)
    as [[mz ez] lz].
  apply (binary_round_aux_sign (xorb false false)).
Qed.

(** On a float that is not negative, truncation and floor agree. *)
Lemma int_floor_nonneg (x : float) :
  match x with S754_finite s _ _ => s = false | _ => True end ->
  Py.int x = floor x.
Proof.
  destruct x as [s | s | | s m e]; try reflexivity.
  intros ->. reflexivity.
Qed.




(* ================================================================= *)
(** ** [next_open] of the long-only strategy *)

Section LongNextOpen.
Context {B : Type} `{Broker B} `{FloatStr}.

Ltac long_unfold :=
  unfold LongStrat.next_open, self_position_size, self_data, broker_getcash,
         buy, sell, close, bind, ret, log, modify, gets, lift.

(** Flat and bullish: the size is computed, the line is printed, the
    BUY is requested; a failing size computation ends the callback. *)
Lemma long_entry (s : Strategy B) :
  position_size (broker s) = 0 ->
  Py.gt (bar_predicted (data0 s)) (Py.of_Z 0) = true ->
  LongStrat.next_open s
  = match all_in_size (getcash (broker s)) (bar_open (data0 s)) with
    | Ok n =>
        Ok (tt, after s (react (Buy n) (broker s))
                  [line_of s (created_msg "LONG" n (getcash (broker s)) (data0 s));
                   Submit (Buy n)])
    | Raise e => Raise e
    end.
Proof.
  intros Hflat Hbull. long_unfold. rewrite Hflat, Hbull. simpl.
  destruct (all_in_size _ _); [ | reflexivity ].
  rewrite emit_after, request_after. reflexivity.
Qed.

(** A position and a bearish signal: the line is printed and a SELL of
    the held size is requested. *)
Lemma long_exit (s : Strategy B) :
  position_size (broker s) <> 0 ->
  Py.lt (bar_predicted (data0 s)) (Py.of_Z 0) = true ->
  LongStrat.next_open s
  = Ok (tt, after s (react (Sell (position_size (broker s))) (broker s))
              [line_of s ("SELL CREATED --- Size: "
                          ++ Py.str_int (position_size (broker s)));
               Submit (Sell (position_size (broker s)))]).
Proof.
  intros Hpos Hbear. long_unfold.
  apply Z.eqb_neq in Hpos. rewrite Hpos, Hbear. simpl.
  rewrite emit_after, request_after. reflexivity.
Qed.

Lemma long_idle_flat (s : Strategy B) :
  position_size (broker s) = 0 ->
  Py.gt (bar_predicted (data0 s)) (Py.of_Z 0) = false ->
  LongStrat.next_open s = Ok (tt, s).
Proof.
  intros Hflat Hbull. long_unfold. now rewrite Hflat, Hbull.
Qed.

Lemma long_idle_held (s : Strategy B) :
  position_size (broker s) <> 0 ->
  Py.lt (bar_predicted (data0 s)) (Py.of_Z 0) = false ->
  LongStrat.next_open s = Ok (tt, s).
Proof.
  intros Hpos Hbear. long_unfold.
  apply Z.eqb_neq in Hpos. now rewrite Hpos, Hbear.
Qed.

End LongNextOpen.

(* ================================================================= *)
(** ** [next_open] of the long-and-short strategy *)

Section LongShortNextOpen.
Context {B : Type} `{Broker B} `{FloatStr}.

Ltac long_short_unfold :=
  unfold LongShortStrat.next_open, self_position_size, self_data,
         broker_getcash, buy, sell, close, bind, ret, log, modify, gets, lift.

(** The size is computed first, whatever the position and the signal:
    when that fails the callback fails. *)
Lemma long_short_size_raises (s : Strategy B) (e : Py.exn) :
  all_in_size (getcash (broker s)) (bar_open (data0 s)) = Raise e ->
  LongShortStrat.next_open s = Raise e.
Proof.
  intros Hsz. long_short_unfold. now rewrite Hsz.
Qed.

Section Sized.
Variable s : Strategy B.
Variable n : Z.
Hypothesis Hsize : all_in_size (getcash (broker s)) (bar_open (data0 s)) = Ok n.

Lemma long_short_entry_long :
  position_size (broker s) = 0 ->
  Py.gt (bar_predicted (data0 s)) (Py.of_Z 0) = true ->
  LongShortStrat.next_open s
  = Ok (tt, after s (react (Buy n) (broker s))
              [line_of s (created_msg "LONG" n (getcash (broker s)) (data0 s));
               Submit (Buy n)]).
Proof.
  intros Hflat Hbull. long_short_unfold. rewrite Hsize, Hflat, Hbull. simpl.
  rewrite emit_after, request_after. reflexivity.
Qed.

Lemma long_short_entry_short :
  position_size (broker s) = 0 ->
  Py.gt (bar_predicted (data0 s)) (Py.of_Z 0) = false ->
  Py.lt (bar_predicted (data0 s)) (Py.of_Z 0) = true ->
  LongShortStrat.next_open s
  = Ok (tt, after s (react (Sell n) (broker s))
              [line_of s (created_msg "SHORT" n (getcash (broker s)) (data0 s));
               Submit (Sell n)]).
Proof.
  intros Hflat Hbull Hbear. long_short_unfold.
  rewrite Hsize, Hflat, Hbull, Hbear. simpl.
  rewrite emit_after, request_after. reflexivity.
Qed.

Lemma long_short_idle_flat :
  position_size (broker s) = 0 ->
  Py.gt (bar_predicted (data0 s)) (Py.of_Z 0) = false ->
  Py.lt (bar_predicted (data0 s)) (Py.of_Z 0) = false ->
  LongShortStrat.next_open s = Ok (tt, s).
Proof.
  intros Hflat Hbull Hbear. long_short_unfold.
  now rewrite Hsize, Hflat, Hbull, Hbear.
Qed.

Lemma long_short_reverse_long :
  0 < position_size (broker s) ->
  Py.lt (bar_predicted (data0 s)) (Py.of_Z 0) = true ->
  LongShortStrat.next_open s
  = Ok (tt, after s (react (Sell n) (react Close (broker s)))
              [line_of s ("CLOSE LONG POSITION --- Size: "
                          ++ Py.str_int (position_size (broker s)));
               Submit Close;
               Submit (Sell n)]).
Proof.
  intros Hpos Hbear.
  assert (E0 : (position_size (broker s) =? 0) = false) by (apply Z.eqb_neq; lia).
  assert (E1 : (position_size (broker s) >? 0) = true) by (apply Z.gtb_lt; lia).
  long_short_unfold. rewrite Hsize, E0, E1, Hbear. simpl.
  rewrite emit_after, !request_after. reflexivity.
Qed.

Lemma long_short_reverse_short :
  position_size (broker s) < 0 ->
  Py.gt (bar_predicted (data0 s)) (Py.of_Z 0) = true ->
  LongShortStrat.next_open s
  = Ok (tt, after s (react (Buy n) (react Close (broker s)))
              [line_of s ("CLOSE SHORT POSITION --- Size: "
                          ++ Py.str_int (Z.abs (position_size (broker s))));
               Submit Close;
               Submit (Buy n)]).
Proof.
  intros Hpos Hbull.
  assert (E0 : (position_size (broker s) =? 0) = false) by (apply Z.eqb_neq; lia).
  assert (E1 : (position_size (broker s) >? 0) = false) by (rewrite Z.gtb_ltb; apply Z.ltb_ge; lia).
  assert (E2 : (position_size (broker s) <? 0) = true) by (apply Z.ltb_lt; lia).
  long_short_unfold. rewrite Hsize, E0, E1, E2, Hbull. simpl.
  rewrite emit_after, !request_after. reflexivity.
Qed.

Lemma long_short_idle_long :
  0 < position_size (broker s) ->
  Py.lt (bar_predicted (data0 s)) (Py.of_Z 0) = false ->
  LongShortStrat.next_open s = Ok (tt, s).
Proof.
  intros Hpos Hbear.
  assert (E0 : (position_size (broker s) =? 0) = false) by (apply Z.eqb_neq; lia).
  assert (E1 : (position_size (broker s) >? 0) = true) by (apply Z.gtb_lt; lia).
  long_short_unfold. now rewrite Hsize, E0, E1, Hbear.
Qed.

Lemma long_short_idle_short :
  position_size (broker s) < 0 ->
  Py.gt (bar_predicted (data0 s)) (Py.of_Z 0) = false ->
  LongShortStrat.next_open s = Ok (tt, s).
Proof.
  intros Hpos Hbull.
  assert (E0 : (position_size (broker s) =? 0) = false) by (apply Z.eqb_neq; lia).
  assert (E1 : (position_size (broker s) >? 0) = false) by (rewrite Z.gtb_ltb; apply Z.ltb_ge; lia).
  assert (E2 : (position_size (broker s) <? 0) = true) by (apply Z.ltb_lt; lia).
  long_short_unfold. now rewrite Hsize, E0, E1, E2, Hbull.
Qed.
End Sized.

(** C1, amended: on a reversal the journal grows by the CLOSE line, the
    CLOSE request and then the SELL (long position, bearish signal) or BUY
    (short position, bullish signal) request, in that order; the quantity
    of the new request is the all-in size of the cash the broker reported
    when [next_open] started, before the CLOSE was requested. *)
Theorem reversal_closes_then_reopens (s : Strategy B) (n : Z)
    (Hsize : all_in_size (getcash (broker s)) (bar_open (data0 s)) = Ok n) :
  let held := position_size (broker s) in
  let bar := data0 s in
  (0 < held -> Py.lt (bar_predicted bar) Py.fzero = true ->
     LongShortStrat.next_open s
     = Ok (tt, after s (react (Sell n) (react Close (broker s)))
                 [Print (isodate bar ++ ", CLOSE LONG POSITION --- Size: "
                         ++ Py.str_int held);
                  Submit Close;
                  Submit (Sell n)]))
  /\ (held < 0 -> Py.gt (bar_predicted bar) Py.fzero = true ->
        LongShortStrat.next_open s
        = Ok (tt, after s (react (Buy n) (react Close (broker s)))
                    [Print (isodate bar ++ ", CLOSE SHORT POSITION --- Size: "
                            ++ Py.str_int (Z.abs held));
                     Submit Close;
                     Submit (Buy n)])).
Proof.
  intros held bar. split.
  - intros Hpos Hbear. now apply long_short_reverse_long.
  - intros Hpos Hbull. now apply long_short_reverse_short.
Qed.

End LongShortNextOpen.

(* ================================================================= *)
(** ** Division of a smaller by a larger positive float *)

Lemma fexp_binary64 (e : Z) : fexp Py.prec Py.emax e = Z.max (e - 53) (-1074).
Proof. reflexivity. Qed.

Lemma digits2_pos_size (p : positive) : digits2_pos p = Pos.size p.
Proof. induction p; simpl; congruence. Qed.

Lemma digits2_pos_upper (p : positive) : Z.pos p < 2 ^ Z.pos (digits2_pos p).
Proof.
  rewrite digits2_pos_size.
  pose proof (Pos.size_gt p) as Hgt.
  apply Pos2Z.pos_lt_pos in Hgt. now rewrite Pos2Z.inj_pow in Hgt.
Qed.

Lemma digits2_pos_lower (p : positive) : 2 ^ Z.pos (digits2_pos p) <= 2 * Z.pos p.
Proof.
  rewrite digits2_pos_size.
  pose proof (Pos.size_le p) as Hle.
  apply Pos2Z.pos_le_pos in Hle. now rewrite Pos2Z.inj_pow in Hle.
Qed.

Lemma Zdigits2_le (q a : Z) : 0 <= q < 2 ^ a -> 0 <= a -> Zdigits2 q <= a.
Proof.
  intros [Hq0 Hqa] Ha. destruct q as [ | p | p ]; simpl; try lia.
  pose proof (digits2_pos_lower p) as Hlow.
  destruct (Z_le_gt_dec (Z.pos (digits2_pos p)) a) as [ | Hgt ]; [ assumption | ].
  assert (Hpow : 2 ^ (a + 1) <= 2 ^ Z.pos (digits2_pos p))
    by (apply Z.pow_le_mono_r; lia).
  rewrite Z.pow_add_r in Hpow by lia. lia.
Qed.

Lemma digits2_pos_mono (p q : positive) :
  (p < q)%positive -> Z.pos (digits2_pos p) <= Z.pos (digits2_pos q).
Proof.
  intros Hpq.
  apply (Zdigits2_le (Z.pos p)); [ | lia ].
  pose proof (digits2_pos_upper q). lia.
Qed.

Lemma shr_1_quotient (N D : Z) (mrs : shr_record) :
  holds_quotient N D mrs -> holds_quotient N (2 * D) (shr_1 mrs).
Proof.
  intros (HD & HN & Hm & Hr).
  pose proof (Z.div_mod N D ltac:(lia)) as Hdm.
  pose proof (Z.mod_pos_bound N D HD) as Hrho.
  assert (Hq : 0 <= N / D) by (apply Z.div_pos; lia).
  assert (Hhalf : N / (2 * D) = N / D / 2)
    by (rewrite Z.div_div by lia; f_equal; lia).
  assert (Hodd : forall h, N / D = 2 * h + 1 -> N mod (2 * D) = D + N mod D).
  { intros h Hh. symmetry. apply (Z.mod_unique N (2 * D) h); [ lia | nia ]. }
  destruct mrs as [m r s]; cbn [shr_m shr_r] in Hm, Hr.
  assert (Hshape : shr_m (shr_1 (Build_shr_record m r s)) = m / 2
                   /\ (shr_r (shr_1 (Build_shr_record m r s)) = true ->
                       exists h, m = 2 * h + 1)).
  { destruct m as [ | [ p | p | ] | [ p | p | ] ]; try lia; simpl; split;
      try reflexivity; try discriminate.
    - rewrite Pos2Z.inj_xI. apply (Z.div_unique _ 2 _ 1); lia.
    - intros _. exists (Z.pos p). lia.
    - rewrite Pos2Z.inj_xO. apply (Z.div_unique _ 2 _ 0); lia.
    - intros _. exists 0. lia. }
  destruct Hshape as [Hm' Hr'].
  repeat split; try lia.
  - rewrite Hm', Hhalf, Hm. reflexivity.
  - intros Hbit. destruct (Hr' Hbit) as [h Hh].
    rewrite (Hodd h) by lia. lia.
Qed.

Lemma pow2_xO (p : positive) : 2 ^ Z.pos p~0 = 2 ^ Z.pos p * 2 ^ Z.pos p.
Proof.
  replace (Z.pos p~0) with (Z.pos p + Z.pos p) by lia.
  now rewrite Z.pow_add_r by lia.
Qed.

Lemma pow2_xI (p : positive) : 2 ^ Z.pos p~1 = 2 * (2 ^ Z.pos p * 2 ^ Z.pos p).
Proof.
  replace (Z.pos p~1) with (1 + Z.pos p~0) by lia.
  now rewrite Z.pow_add_r, pow2_xO by lia.
Qed.

Lemma iter_shr_1_quotient (N : Z) (p : positive) :
  forall (D : Z) (mrs : shr_record),
    holds_quotient N D mrs ->
    holds_quotient N (D * 2 ^ Z.pos p) (iter_pos shr_1 p mrs).
Proof.
  induction p as [ p IH | p IH | ]; intros D mrs Hinv; simpl iter_pos.
  - replace (D * 2 ^ Z.pos p~1) with (2 * D * 2 ^ Z.pos p * 2 ^ Z.pos p)
      by (rewrite pow2_xI; ring).
    apply IH, IH, shr_1_quotient, Hinv.
  - replace (D * 2 ^ Z.pos p~0) with (D * 2 ^ Z.pos p * 2 ^ Z.pos p)
      by (rewrite pow2_xO; ring).
    apply IH, IH, Hinv.
  - replace (D * 2 ^ 1) with (2 * D) by (change (2 ^ 1) with 2; ring).
    apply shr_1_quotient, Hinv.
Qed.

Lemma shr_quotient (N D : Z) (mrs : shr_record) (e n : Z) :
  holds_quotient N D mrs ->
  exists k, k = Z.max 0 n
            /\ snd (shr mrs e n) = e + k
            /\ holds_quotient N (D * 2 ^ k) (fst (shr mrs e n)).
Proof.
  intros Hinv. exists (Z.max 0 n).
  split; [ reflexivity | ].
  destruct n as [ | p | p ]; cbn [shr fst snd].
  - change (Z.max 0 0) with 0. rewrite Z.add_0_r, Z.mul_1_r. now split.
  - rewrite Z.max_r by lia. split; [ reflexivity | ].
    now apply iter_shr_1_quotient.
  - rewrite Z.max_l by lia. rewrite Z.add_0_r, Z.mul_1_r. now split.
Qed.

Lemma round_nearest_even_cases (mrs : shr_record) :
  let m := round_nearest_even (shr_m mrs) (loc_of_shr_record mrs) in
  m = shr_m mrs \/ (m = shr_m mrs + 1 /\ shr_r mrs = true).
Proof.
  destruct mrs as [m [ | ] [ | ]]; simpl; try destruct (Z.even m); auto.
Qed.

Lemma shr_m_of_loc (q : Z) (loc : location) : shr_m (shr_record_of_loc q loc) = q.
Proof. destruct loc as [ | [ | | ] ]; reflexivity. Qed.

(** Rounding a quotient [N / D * 2^e'] that is at most [1 - 2^-53] gives a
    float below one, whose integer part is zero. *)
Lemma round_below_one (N D q e' : Z) (loc : location) :
  holds_quotient N D (shr_record_of_loc q loc) ->
  e' <= -53 ->
  N * 2 ^ 53 <= D * (2 ^ 53 - 1) * 2 ^ (- e') ->
  Py.int (binary_round_aux Py.prec Py.emax false q e' loc) = Ok 0.
Proof.
  intros Hinv He' Hbound.
  pose proof Hinv as (HD & HN & Hq & _). rewrite shr_m_of_loc in Hq.
  assert (HT : 0 < 2 ^ (- e')) by (apply Z.pow_pos_nonneg; lia).
  assert (HNlt : N < D * 2 ^ (- e')) by nia.
  assert (Hq0 : 0 <= q) by (subst q; apply Z.div_pos; lia).
  assert (Hqlt : q < 2 ^ (- e'))
    by (subst q; apply Z.div_lt_upper_bound; lia).
  assert (Hdq : Zdigits2 q <= - e') by (apply Zdigits2_le; lia).
  unfold binary_round_aux, shr_fexp.
  rewrite fexp_binary64.
  destruct (shr_quotient N D _ e' (Z.max (Zdigits2 q + e' - 53) (-1074) - e') Hinv)
    as (k1 & Hk1 & He1 & Hinv1).
  destruct (shr (shr_record_of_loc q loc) e' _) as [mrs1 e1].
  cbn [fst snd] in He1, Hinv1.
  destruct Hinv1 as (HD1 & _ & Hm1 & Hr1).
  set (t := - e1).
  assert (Ht : 53 <= t) by lia.
  assert (Hsplit : 2 ^ (- e') = 2 ^ k1 * 2 ^ t)
    by (rewrite <- Z.pow_add_r by lia; f_equal; lia).
  assert (Hu : 2 ^ t = 2 ^ 53 * 2 ^ (t - 53))
    by (rewrite <- Z.pow_add_r by lia; f_equal; lia).
  assert (Hu1 : 1 <= 2 ^ (t - 53))
    by (pose proof (Z.pow_pos_nonneg 2 (t - 53)); lia).
  set (D1 := D * 2 ^ k1) in *.
  assert (Hbound1 : N * 2 ^ 53 <= D1 * (2 ^ 53 - 1) * 2 ^ t)
    by (unfold D1; rewrite Hsplit in Hbound; lia).
  pose proof (Z.div_mod N D1 ltac:(lia)) as Hdm.
  pose proof (Z.mod_pos_bound N D1 HD1) as Hrho.
  assert (Hm1pos : 0 <= N / D1) by (apply Z.div_pos; lia).
  assert (Hm2 : 0 <= round_nearest_even (shr_m mrs1) (loc_of_shr_record mrs1) < 2 ^ t).
  { destruct (round_nearest_even_cases mrs1) as [-> | [-> Hbit]]; rewrite Hm1.
    - split; [ lia | ]. change (2 ^ 53) with 9007199254740992 in *. nia.
    - specialize (Hr1 Hbit). split; [ lia | ].
      change (2 ^ 53) with 9007199254740992 in *. nia. }
  set (m2 := round_nearest_even (shr_m mrs1) (loc_of_shr_record mrs1)) in *.
  assert (Hinv2 : holds_quotient m2 1 (shr_record_of_loc m2 loc_Exact)).
  { repeat split; try lia.
    - cbn [shr_record_of_loc shr_m]. now rewrite Z.div_1_r.
    - discriminate. }
  rewrite fexp_binary64.
  destruct (shr_quotient m2 1 _ e1 (Z.max (Zdigits2 m2 + e1 - 53) (-1074) - e1) Hinv2)
    as (k2 & Hk2 & He2 & Hinv3).
  destruct (shr (shr_record_of_loc m2 loc_Exact) e1 _) as [mrs2 e2].
  cbn [fst snd] in He2, Hinv3.
  destruct Hinv3 as (_ & _ & Hm3 & _). rewrite Z.mul_1_l in Hm3.
  assert (Hk2pos : 0 <= k2) by lia.
  assert (Hp2 : 0 < 2 ^ k2) by (apply Z.pow_pos_nonneg; lia).
  assert (Hm3pos : 0 <= m2 / 2 ^ k2) by (apply Z.div_pos; lia).
  destruct (shr_m mrs2) as [ | p | p ] eqn:Em3; [ reflexivity | | lia ].
  assert (Hk2t : k2 < t).
  { destruct (Z_lt_ge_dec k2 t) as [ | Hge ]; [ assumption | exfalso ].
    assert (2 ^ t <= 2 ^ k2) by (apply Z.pow_le_mono_r; lia).
    rewrite Z.div_small in Hm3 by lia. discriminate. }
  replace (e2 <=? Py.emax - Py.prec) with true
    by (symmetry; apply Z.leb_le; unfold Py.emax, Py.prec; lia).
  cbn [Py.int cond_Zopp]. f_equal.
  rewrite Z.shiftl_div_pow2 by lia.
  rewrite Hm3, Z.div_div by lia.
  rewrite <- Z.pow_add_r by lia.
  replace (k2 + - e2) with t by lia.
  apply Z.div_small. lia.
Qed.

Lemma new_location_round_bit (q d r : Z) :
  0 < d -> 0 <= r < d ->
  shr_r (shr_record_of_loc q (new_location d r)) = true -> d <= 2 * r.
Proof.
  intros Hd Hr.
  unfold new_location, new_location_even, new_location_odd.
  destruct (Z.even d); destruct (Z.eqb_spec r 0) as [ | Hr0 ];
    try (cbn; discriminate).
  - destruct (Z.compare_spec (2 * r) d); cbn [shr_r shr_record_of_loc];
      try discriminate; lia.
  - destruct (Z.compare_spec (2 * r + 1) d); cbn [shr_r shr_record_of_loc];
      try discriminate; lia.
Qed.

(** The integer division at the heart of [SFdiv]: the quotient of
    [mx * 2^s] by [my], with the shift [s] the algorithm chooses. *)
Lemma div_core_quotient (mx my : positive) (ex ey : Z) :
  let e' := Z.min (fexp Py.prec Py.emax
                     (Z.pos (digits2_pos mx) + ex - (Z.pos (digits2_pos my) + ey)))
                  (ex - ey) in
  exists q loc,
    SFdiv_core_binary Py.prec Py.emax (Z.pos mx) ex (Z.pos my) ey = (q, e', loc)
    /\ holds_quotient (Z.pos mx * 2 ^ (ex - ey - e')) (Z.pos my)
                      (shr_record_of_loc q loc).
Proof.
  intros e'. unfold SFdiv_core_binary. cbn [Zdigits2]. fold e'.
  assert (Hs : 0 <= ex - ey - e') by (unfold e'; lia).
  set (s := ex - ey - e') in *.
  assert (Hm' : match s with
                | Z.pos _ => Z.shiftl (Z.pos mx) s
                | 0 => Z.pos mx
                | Z.neg _ => 0
                end = Z.pos mx * 2 ^ s).
  { destruct s as [ | p | p ]; [ cbn; lia | | lia ].
    apply Z.shiftl_mul_pow2. lia. }
  rewrite Hm'.
  assert (Hpow : 0 < 2 ^ s) by (apply Z.pow_pos_nonneg; lia).
  set (N := Z.pos mx * 2 ^ s) in *.
  pose proof (Z.mod_pos_bound N (Z.pos my) ltac:(lia)) as Hrem.
  assert (Hdiv : Z.div_eucl N (Z.pos my) = (N / Z.pos my, N mod Z.pos my)).
  { unfold Z.div, Z.modulo. now destruct (Z.div_eucl N (Z.pos my)). }
  rewrite Hdiv.
  eexists _, _. split; [ reflexivity | ].
  repeat split; try lia.
  - now rewrite shr_m_of_loc.
  - apply new_location_round_bit; lia.
Qed.

Lemma canonical_binary64 (m : positive) (e : Z) :
  bounded Py.prec Py.emax m e = true ->
  Z.max (Z.pos (digits2_pos m) + e - 53) (-1074) = e.
Proof.
  unfold bounded, canonical_mantissa. rewrite fexp_binary64.
  intros Hb. apply andb_true_iff in Hb. destruct Hb as [Hc _].
  now apply Z.eqb_eq in Hc.
Qed.

(** Positive cash below the price buys nothing: the quotient rounds to a
    float below one. *)
Lemma small_cash_size_zero (cash price : float) :
  valid_binary Py.prec Py.emax cash = true ->
  valid_binary Py.prec Py.emax price = true ->
  Py.gt cash Py.fzero = true ->
  Py.lt cash price = true ->
  all_in_size cash price = Ok 0.
Proof.
  intros Vc Vp Hpos Hlt.
  destruct (gt_zero_cases cash Hpos) as [-> | (mx & ex & ->)];
    [ destruct price as [ [ | ] | [ | ] | | [ | ] ? ? ]; discriminate Hlt | ].
  destruct price as [ sy | sy | | sy my ey ]; try discriminate Hlt.
  - destruct sy; [ discriminate Hlt | reflexivity ].
  - destruct sy; [ discriminate Hlt | ].
    cbn [valid_binary] in Vc, Vp.
    apply canonical_binary64 in Vc, Vp.
    pose proof (digits2_pos_upper mx) as Hux.
    pose proof (digits2_pos_upper my) as Huy.
    pose proof (digits2_pos_lower my) as Hly.
    set (dx := Z.pos (digits2_pos mx)) in *.
    set (dy := Z.pos (digits2_pos my)) in *.
    assert (Hdx : 1 <= dx) by (unfold dx; lia).
    assert (Hdy : 1 <= dy) by (unfold dy; lia).
    assert (Hcmp : ex < ey \/ (ex = ey /\ (mx < my)%positive)).
    { unfold Py.lt, SFltb, SFcompare in Hlt.
      destruct (Z.compare_spec ex ey); try discriminate Hlt; [ right | left; lia ].
      split; [ assumption | ].
      change (Pos.compare_cont Eq mx my) with (Pos.compare mx my) in Hlt.
      destruct (Pos.compare_spec mx my); try discriminate Hlt. assumption. }
    assert (Hmag : dx + ex <= dy + ey).
    { destruct Hcmp as [ Hex | [ Hex Hm ] ]; [ lia | ].
      pose proof (digits2_pos_mono mx my Hm). fold dx dy in H. lia. }
    unfold all_in_size, Py.truediv. cbn [Py.eq SFeqb SFcompare Py.fzero Py.rbind].
    unfold SFdiv.
    destruct (div_core_quotient mx my ex ey) as (q & loc & -> & Hquot).
    fold dx dy in Hquot |- *. rewrite fexp_binary64 in Hquot |- *.
    set (e' := Z.min (Z.max (dx + ex - (dy + ey) - 53) (-1074)) (ex - ey)) in *.
    cbn [xorb].
    apply (round_below_one _ _ _ _ _ Hquot); [ unfold e'; lia | ].
    assert (He' : - e' = (ex - ey - e') + (ey - ex)) by lia.
    assert (Hs : 0 <= ex - ey - e') by (unfold e'; lia).
    assert (Hg : 0 <= ey - ex) by lia.
    rewrite He', Z.pow_add_r by lia.
    assert (Hps : 0 < 2 ^ (ex - ey - e')) by (apply Z.pow_pos_nonneg; lia).
    assert (Hdy53 : 2 ^ dy <= 2 ^ 53) by (apply Z.pow_le_mono_r; lia).
    assert (Hdx53 : 2 ^ dx <= 2 ^ 53) by (apply Z.pow_le_mono_r; lia).
    assert (Hcore : Z.pos mx * 2 ^ 53 <= Z.pos my * (2 ^ 53 - 1) * 2 ^ (ey - ex)).
    { destruct Hcmp as [ Hex | [ Hex Hm ] ].
      - assert (dy = 53) by lia.
        assert (2 <= 2 ^ (ey - ex)).
        { change 2 with (2 ^ 1) at 1. apply Z.pow_le_mono_r; lia. }
        replace dy with 53 in Hly by lia.
        change (2 ^ 53) with 9007199254740992 in *. nia.
      - replace (ey - ex) with 0 by lia. change (2 ^ 0) with 1.
        assert (Z.pos mx + 1 <= Z.pos my) by lia.
        change (2 ^ 53) with 9007199254740992 in *. nia. }
    nia.
Qed.

(* ================================================================= *)
(** ** Entries of size zero *)

Lemma lt_zero_not_gt (x : float) :
  Py.lt x Py.fzero = true -> Py.gt x Py.fzero = false.
Proof.
  intros Hx. destruct (lt_zero_cases x Hx) as [-> | (m & e & ->)]; reflexivity.
Qed.

Section ZeroSize.
Context {B : Type} `{Broker B} `{FloatStr}.

(** C10: flat, with positive cash below the open price, both files
    compute size 0 and go on: a bullish signal prints the LONG CREATED
    line with "Size: 0" and requests BUY 0; in the long-and-short file a
    bearish signal prints the SHORT CREATED line with "Size: 0" and
    requests SELL 0.  Nothing in between tests the size. *)
Theorem zero_size_entry_requested (s : Strategy B)
    (Vcash : valid_binary Py.prec Py.emax (getcash (broker s)) = true)
    (Vopen : valid_binary Py.prec Py.emax (bar_open (data0 s)) = true)
    (Hflat : position_size (broker s) = 0)
    (Hcash : Py.gt (getcash (broker s)) Py.fzero = true)
    (Hsmall : Py.lt (getcash (broker s)) (bar_open (data0 s)) = true) :
  let cash := getcash (broker s) in
  let bar := data0 s in
  let created side :=
    Print (isodate bar ++ ", " ++ side ++ " CREATED --- Size: 0, Cash: "
           ++ Py.format_2f cash ++ ", Open: " ++ str_float (bar_open bar)
           ++ ", Close: " ++ str_float (bar_close bar)) in
  (Py.gt (bar_predicted bar) Py.fzero = true ->
     LongStrat.next_open s
     = Ok (tt, after s (react (Buy 0) (broker s)) [created "LONG"; Submit (Buy 0)])
     /\ LongShortStrat.next_open s
        = Ok (tt, after s (react (Buy 0) (broker s)) [created "LONG"; Submit (Buy 0)]))
  /\ (Py.lt (bar_predicted bar) Py.fzero = true ->
        LongShortStrat.next_open s
        = Ok (tt, after s (react (Sell 0) (broker s)) [created "SHORT"; Submit (Sell 0)])).
Proof.
  intros cash bar created.
  pose proof (small_cash_size_zero _ _ Vcash Vopen Hcash Hsmall) as Hsize.
  split.
  - intros Hbull. split.
    + rewrite (long_entry s Hflat Hbull), Hsize. reflexivity.
    + rewrite (long_short_entry_long s 0 Hsize Hflat Hbull). reflexivity.
  - intros Hbear.
    rewrite (long_short_entry_short s 0 Hsize Hflat (lt_zero_not_gt _ Hbear) Hbear).
    reflexivity.
Qed.

End ZeroSize.

Lemma zero_size_entry_requested_witness :
  (LongStrat.next_open (flat_20 bar_bullish)
   = Ok (tt, mkStrategy None None None (mkAccount (Py.of_Z 20) 0) bar_bullish
               [Print "2024-01-02, LONG CREATED --- Size: 0, Cash: 20.00, Open: 33.0, Close: 34.0";
                Submit (Buy 0)])
   /\ LongShortStrat.next_open (flat_20 bar_bullish)
      = Ok (tt, mkStrategy None None None (mkAccount (Py.of_Z 20) 0) bar_bullish
                  [Print "2024-01-02, LONG CREATED --- Size: 0, Cash: 20.00, Open: 33.0, Close: 34.0";
                   Submit (Buy 0)]))
  /\ LongShortStrat.next_open (flat_20 bar_bearish)
     = Ok (tt, mkStrategy None None None (mkAccount (Py.of_Z 20) 0) bar_bearish
                 [Print "2024-01-03, SHORT CREATED --- Size: 0, Cash: 20.00, Open: 50.0, Close: 49.0";
                  Submit (Sell 0)]).
Proof.
  split.
  - refine (proj1 (zero_size_entry_requested (flat_20 bar_bullish) _ _ _ _ _) _);
      reflexivity.
  - refine (proj2 (zero_size_entry_requested (flat_20 bar_bearish) _ _ _ _ _) _);
      reflexivity.
Defined.

(* ================================================================= *)
(** ** Every log line has a known shape *)

Section LogLines.
Context {B : Type} `{Broker B} `{FloatStr}.

Lemma no_events (s s' : Strategy B) (P : Event -> Prop) :
  journal s' = journal s ->
  exists evs, journal s' = (journal s ++ evs)%list /\ Forall P evs.
Proof.
  intros ->. exists []. split; [ now rewrite app_nil_r | constructor ].
Qed.

Lemma listed_line (s : Strategy B) (msg : string) :
  listed_message msg -> log_line_with emitted_message s (line_of s msg).
Proof.
  intros Hl. exists msg. split; [ reflexivity | now left ].
Qed.

Lemma sell_created_line (s : Strategy B) (n : Z) :
  log_line_with emitted_message s
    (line_of s ("SELL CREATED --- Size: " ++ Py.str_int n)).
Proof.
  eexists. split; [ reflexivity | right; now exists n ].
Qed.

Lemma long_notify_order_lines (o : Order) (s s' : Strategy B) :
  LongStrat.notify_order o s = Ok (tt, s') ->
  exists evs, journal s' = (journal s ++ evs)%list
              /\ Forall (log_line_with emitted_message s) evs.
Proof.
  destruct (status_in_cases (status o)) as [Ht | [Hc | [Hf | Hu]]].
  - rewrite (proj1 (transient_status_ignored o s Ht)).
    intros [= <-]. now apply no_events.
  - rewrite (long_completed_reported o s Hc). intros [= <-].
    destruct (isbuy o); eexists; (split; [ reflexivity | ]);
      repeat constructor; apply listed_line; constructor.
  - callback_unfold.
    destruct (status o); simpl in Hf; try discriminate Hf; simpl;
      intros [= <-]; eexists; (split; [ reflexivity | ]);
      repeat constructor; apply (listed_line s); constructor.
  - callback_unfold.
    destruct Hu as [-> | [-> | ->]]; simpl; intros [= <-]; now apply no_events.
Qed.

Lemma long_short_notify_order_lines (o : Order) (s s' : Strategy B) :
  LongShortStrat.notify_order o s = Ok (tt, s') ->
  exists evs, journal s' = (journal s ++ evs)%list
              /\ Forall (log_line_with emitted_message s) evs.
Proof.
  callback_unfold.
  destruct (status o); simpl; intros [= <-];
    try (now apply no_events);
    eexists; (split; [ reflexivity | ]);
    repeat constructor; apply (listed_line s); constructor.
Qed.

Lemma notify_trade_lines (t : Trade) (s s' : Strategy B) :
  LongStrat.notify_trade t s = Ok (tt, s')
  \/ LongShortStrat.notify_trade t s = Ok (tt, s') ->
  exists evs, journal s' = (journal s ++ evs)%list
              /\ Forall (log_line_with emitted_message s) evs.
Proof.
  callback_unfold.
  destruct (isclosed t); simpl; intros [ [= <-] | [= <-] ];
    try (now apply no_events);
    eexists; (split; [ reflexivity | ]);
    repeat constructor; apply (listed_line s); constructor.
Qed.

Lemma long_next_open_lines (s s' : Strategy B) :
  LongStrat.next_open s = Ok (tt, s') ->
  exists evs, journal s' = (journal s ++ evs)%list
              /\ Forall (log_line_with emitted_message s) evs.
Proof.
  destruct (Z.eq_dec (position_size (broker s)) 0) as [Hflat | Hheld].
  - destruct (Py.gt (bar_predicted (data0 s)) (Py.of_Z 0)) eqn:Hbull.
    + rewrite (long_entry s Hflat Hbull).
      destruct (all_in_size _ _) as [n | e]; [ | discriminate ].
      intros [= <-]. eexists. split; [ reflexivity | ].
      repeat constructor. apply listed_line. constructor.
    + rewrite (long_idle_flat s Hflat Hbull). intros [= <-]. now apply no_events.
  - destruct (Py.lt (bar_predicted (data0 s)) (Py.of_Z 0)) eqn:Hbear.
    + rewrite (long_exit s Hheld Hbear). intros [= <-].
      eexists. split; [ reflexivity | ].
      repeat constructor. apply sell_created_line.
    + rewrite (long_idle_held s Hheld Hbear). intros [= <-]. now apply no_events.
Qed.

Lemma long_short_next_open_lines (s s' : Strategy B) :
  LongShortStrat.next_open s = Ok (tt, s') ->
  exists evs, journal s' = (journal s ++ evs)%list
              /\ Forall (log_line_with emitted_message s) evs.
Proof.
  destruct (all_in_size (getcash (broker s)) (bar_open (data0 s)))
    as [n | e] eqn:Hsize;
    [ | rewrite (long_short_size_raises s e Hsize); discriminate ].
  destruct (Py.gt (bar_predicted (data0 s)) (Py.of_Z 0)) eqn:Hbull;
    destruct (Py.lt (bar_predicted (data0 s)) (Py.of_Z 0)) eqn:Hbear;
    destruct (Z.lt_trichotomy (position_size (broker s)) 0) as [Hs | [Hf | Hl]].
  all: first
    [ rewrite (long_short_entry_long s n Hsize Hf Hbull)
    | rewrite (long_short_entry_short s n Hsize Hf Hbull Hbear)
    | rewrite (long_short_idle_flat s n Hsize Hf Hbull Hbear)
    | rewrite (long_short_reverse_long s n Hsize Hl Hbear)
    | rewrite (long_short_reverse_short s n Hsize Hs Hbull)
    | rewrite (long_short_idle_long s n Hsize Hl Hbear)
    | rewrite (long_short_idle_short s n Hsize Hs Hbull) ].
  all: intros [= <-]; try (now apply no_events).
  all: eexists; (split; [ reflexivity | ]); repeat constructor;
    apply (listed_line s); constructor.
Qed.

(** C8, amended: whatever callback of either file runs, every line it
    prints is the bar's ISO date, a comma and a space, and a message that
    follows one of the enumerated patterns or is the long-only exit
    message "SELL CREATED --- Size: n". *)
Theorem log_lines_follow_patterns (cb : Callback) (s s' : Strategy B)
    (Hrun : run cb s = Ok (tt, s')) :
  exists evs, journal s' = (journal s ++ evs)%list
              /\ Forall (log_line_with emitted_message s) evs.
Proof.
  destruct cb as [o | t | | o | t | ]; cbn [run] in Hrun.
  - now apply (long_notify_order_lines o).
  - apply (notify_trade_lines t). now left.
  - now apply long_next_open_lines.
  - now apply (long_short_notify_order_lines o).
  - apply (notify_trade_lines t). now right.
  - now apply long_short_next_open_lines.
Qed.

End LogLines.

(* ================================================================= *)
(** ** The theorems at the example inputs *)

Lemma reversal_closes_then_reopens_witness :
  LongShortStrat.next_open (long_5 bar_bearish)
  = Ok (tt, mkStrategy None None None (mkAccount (Py.of_Z 100) 5) bar_bearish
              [Print "2024-01-03, CLOSE LONG POSITION --- Size: 5";
               Submit Close; Submit (Sell 2)])
  /\ LongShortStrat.next_open (short_4 bar_bullish)
     = Ok (tt, mkStrategy None None None (mkAccount (Py.of_Z 100) (-4)) bar_bullish
                 [Print "2024-01-02, CLOSE SHORT POSITION --- Size: 4";
                  Submit Close; Submit (Buy 3)]).
Proof.
  split.
  - refine (proj1 (reversal_closes_then_reopens (long_5 bar_bearish) 2 _) _ _);
      reflexivity.
  - refine (proj2 (reversal_closes_then_reopens (short_4 bar_bullish) 3 _) _ _);
      reflexivity.
Defined.

(** C1 as stated fails.  At a broker that settles the CLOSE at once, cash is
    100 when [next_open] starts and 600 once the 10 shares are closed at 50;
    the SELL that follows the CLOSE is for 2 shares, the size of the cash
    before the CLOSE, not for the 12 the cash after it would buy. *)
Lemma reversal_sized_before_close :
  LongShortStrat.next_open long_10_settling
  = Ok (tt, mkStrategy None None None
              (mkTill (Py.of_Z 700) (-2) (Py.of_Z 50)) bar_bearish
              [Print "2024-01-03, CLOSE LONG POSITION --- Size: 10";
               Submit Close; Submit (Sell 2)])
  /\ all_in_size (getcash (react Close (broker long_10_settling)))
                 (bar_open (data0 long_10_settling)) = Ok 12
  /\ ~ reopens_with_cash_after_close long_10_settling.
Proof.
  split; [ vm_compute; reflexivity | ].
  split; [ vm_compute; reflexivity | ].
  intros (line & n & Hrun & Hsize).
  vm_compute in Hsize. injection Hsize as <-.
  vm_compute in Hrun. discriminate Hrun.
Qed.

Lemma long_short_completed_unreported_witness :
  LongShortStrat.notify_order completed_buy (flat_100 bar_bullish)
  = Ok (tt, mkStrategy None None None (mkAccount (Py.of_Z 100) 0) bar_bullish []).
Proof.
  apply (long_short_completed_unreported completed_buy (flat_100 bar_bullish)).
  reflexivity.
Defined.

(** The long-only file on the same fills: the line of the specification's
    example for the buy, with price and commission stored; a line for the
    sell, with nothing stored. *)
Example long_completed_examples :
  LongStrat.notify_order completed_buy (flat_100 bar_bullish)
  = Ok (tt, mkStrategy None (Some (Py.of_decimal 1015 1)) (Some (Py.of_Z 5))
              (mkAccount (Py.of_Z 100) 0) bar_bullish
              [Print "2024-01-02, BUY EXECUTED --- Price: 101.50, Cost: 10000.00, Commission: 5.00"])
  /\ LongStrat.notify_order completed_sell (flat_100 bar_bullish)
     = Ok (tt, mkStrategy None None None (mkAccount (Py.of_Z 100) 0) bar_bullish
                 [Print "2024-01-02, SELL EXECUTED --- Price: 101.50, Cost: 10000.00, Commission: 5.00"]).
Proof.
  split.
  - rewrite (long_completed_reported completed_buy (flat_100 bar_bullish) eq_refl).
    vm_compute. reflexivity.
  - rewrite (long_completed_reported completed_sell (flat_100 bar_bullish) eq_refl).
    vm_compute. reflexivity.
Qed.

Lemma failed_order_logged_and_cleared_witness :
  LongStrat.notify_order rejected_order (flat_100 bar_bullish)
  = Ok (tt, mkStrategy None None None (mkAccount (Py.of_Z 100) 0) bar_bullish
              [Print "2024-01-02, Order Failed"])
  /\ LongShortStrat.notify_order rejected_order (flat_100 bar_bullish)
     = Ok (tt, mkStrategy None None None (mkAccount (Py.of_Z 100) 0) bar_bullish
                 [Print "2024-01-02, Order Failed"]).
Proof.
  apply (failed_order_logged_and_cleared rejected_order (flat_100 bar_bullish)).
  reflexivity.
Defined.

Lemma other_statuses_clear_order_witness :
  LongStrat.notify_order partial_order (flat_100 bar_bullish)
  = Ok (tt, flat_100 bar_bullish)
  /\ LongShortStrat.notify_order partial_order (flat_100 bar_bullish)
     = Ok (tt, flat_100 bar_bullish).
Proof.
  refine (proj1 (proj2 (proj2
    (other_statuses_clear_order partial_order (flat_100 bar_bullish) _))) _);
    reflexivity.
Defined.

Lemma trade_report_witness :
  LongStrat.notify_trade closed_trade (flat_100 bar_bullish)
  = Ok (tt, mkStrategy None None None (mkAccount (Py.of_Z 100) 0) bar_bullish
              [Print "2024-01-02, OPERATION RESULT --- Gross: 120.46, Net: 110.10"])
  /\ LongShortStrat.notify_trade closed_trade (flat_100 bar_bullish)
     = Ok (tt, mkStrategy None None None (mkAccount (Py.of_Z 100) 0) bar_bullish
                 [Print "2024-01-02, OPERATION RESULT --- Gross: 120.46, Net: 110.10"]).
Proof.
  refine (proj1 (trade_report closed_trade (flat_100 bar_bullish)) _).
  reflexivity.
Defined.

(** C8 as stated fails: the long-only exit prints a SELL CREATED line, and
    that message follows none of the enumerated patterns. *)
Lemma sell_created_not_listed :
  LongStrat.next_open (long_5 bar_bearish)
  = Ok (tt, mkStrategy None None None (mkAccount (Py.of_Z 100) 5) bar_bearish
              [Print "2024-01-03, SELL CREATED --- Size: 5"; Submit (Sell 5)])
  /\ ~ log_line_with listed_message (long_5 bar_bearish)
         (Print "2024-01-03, SELL CREATED --- Size: 5").
Proof.
  split; [ vm_compute; reflexivity | ].
  intros (msg & Hline & Hlisted).
  cbn in Hline. injection Hline as <-.
  inversion Hlisted as [ n c bar E | n c bar E | n E | n E | o E | o E | E | t E ];
    discriminate E.
Qed.

Lemma log_lines_follow_patterns_witness :
  exists evs,
    [Print "2024-01-03, SELL CREATED --- Size: 5"; Submit (Sell 5)]
    = (journal (long_5 bar_bearish) ++ evs)%list
    /\ Forall (log_line_with emitted_message (long_5 bar_bearish)) evs.
Proof.
  apply (log_lines_follow_patterns LongNextOpen (long_5 bar_bearish)
           (mkStrategy None None None (mkAccount (Py.of_Z 100) 5) bar_bearish
              [Print "2024-01-03, SELL CREATED --- Size: 5"; Submit (Sell 5)])).
  reflexivity.
Defined.

(* ================================================================= *)
(** ** What one callback does to the state *)

Section CallbackEffects.
Context {B : Type} `{Broker B} `{FloatStr}.

Lemma after_same (s : Strategy B) : after s (broker s) [] = s.
Proof.
  destruct s; unfold after; simpl. now rewrite app_nil_r.
Qed.

Ltac next_open_cases :=
  unfold LongStrat.next_open, LongShortStrat.next_open,
         self_position_size, self_data, broker_getcash,
         buy, sell, close, bind, ret, log, modify, gets, lift;
  repeat match goal with
         | |- context [all_in_size ?c ?o] => destruct (all_in_size c o)
         | |- context [if ?c then _ else _] => destruct c
         end.

(** A notification adds nothing or one line, and leaves broker and bar. *)
Lemma notification_effect (cb : Callback) (s s' : Strategy B) :
  cb <> LongNextOpen -> cb <> LongShortNextOpen ->
  run cb s = Ok (tt, s') ->
  broker s' = broker s /\ data0 s' = data0 s
  /\ (journal s' = journal s \/ exists line, journal s' = (journal s ++ [Print line])%list).
Proof.
  intros Hl Hls.
  destruct cb as [o | t | | o | t | ]; try congruence; cbn [run]; callback_unfold.
  - destruct (status o), (isbuy o); simpl; intros [= <-]; simpl; eauto.
  - destruct (isclosed t); simpl; intros [= <-]; simpl; eauto.
  - destruct (status o); simpl; intros [= <-]; simpl; eauto.
  - destruct (isclosed t); simpl; intros [= <-]; simpl; eauto.
Qed.

(** [next_open] leaves the attributes and the bar; the broker is where the
    requests it recorded took it. *)
Lemma next_open_effect (cb : Callback) (s s' : Strategy B) :
  cb = LongNextOpen \/ cb = LongShortNextOpen ->
  run cb s = Ok (tt, s') ->
  exists evs, s' = after s (settle (requests evs) (broker s)) evs
              /\ callback_shape evs.
Proof.
  intros [-> | ->]; cbn [run]; next_open_cases; try discriminate;
    intros [= <-]; rewrite ?emit_after, ?request_after;
    unfold callback_shape.
  all: try (exists []; split; [ symmetry; apply after_same | now left ]).
  all: cbn [app];
    match goal with
    | |- exists evs, after _ _ ?e = _ /\ _ => exists e
    end;
    (split; [ reflexivity | ]);
    first [ right; left; eexists; reflexivity
          | right; right; left; do 2 eexists; (split; [ | reflexivity ]); reflexivity
          | right; right; right; do 2 eexists; (split; [ | reflexivity ]); reflexivity ].
Qed.


(** The attributes after a callback: only [notify_order] writes them. *)
Lemma run_attributes (cb : Callback) (s s' : Strategy B) :
  run cb s = Ok (tt, s') ->
  order s' = match cb with
             | LongNotifyOrder o | LongShortNotifyOrder o =>
                 if status_in (status o) [Submitted; Accepted] then order s else None
             | _ => order s
             end
  /\ price s' = match cb with
                | LongNotifyOrder o =>
                    if is_completed_buy o then Some (executed_price o) else price s
                | _ => price s
                end
  /\ comm s' = match cb with
               | LongNotifyOrder o =>
                   if is_completed_buy o then Some (executed_comm o) else comm s
               | _ => comm s
               end.
Proof.
  destruct cb as [o | t | | o | t | ].
  - cbn [run]; callback_unfold; unfold is_completed_buy.
    destruct (status o), (isbuy o); simpl; intros [= <-]; auto.
  - cbn [run]; callback_unfold.
    destruct (isclosed t); simpl; intros [= <-]; auto.
  - intros Hrun.
    destruct (next_open_effect LongNextOpen s s' (or_introl eq_refl) Hrun)
      as (evs & -> & _). auto.
  - cbn [run]; callback_unfold.
    destruct (status o); simpl; intros [= <-]; auto.
  - cbn [run]; callback_unfold.
    destruct (isclosed t); simpl; intros [= <-]; auto.
  - intros Hrun.
    destruct (next_open_effect LongShortNextOpen s s' (or_intror eq_refl) Hrun)
      as (evs & -> & _). auto.
Qed.

(** X5: a callback that returns adds to the journal nothing, or one line,
    or a line followed by one buy or sell request, or a line followed by a
    close and then one buy or sell request.  So at most one line is printed
    per callback, every request comes after a line of the same callback,
    and a close is always followed by a reopening request.  The broker
    afterwards is the broker before, taken through exactly the recorded
    requests in order; the bar is never changed. *)
Theorem callback_adds_one_shape (cb : Callback) (s s' : Strategy B)
    (Hrun : run cb s = Ok (tt, s')) :
  exists evs,
    journal s' = (journal s ++ evs)%list
    /\ callback_shape evs
    /\ broker s' = settle (requests evs) (broker s)
    /\ data0 s' = data0 s.
Proof.
  destruct cb as [o | t | | o | t | ].
  3: { destruct (next_open_effect _ s s' (or_introl eq_refl) Hrun) as (evs & -> & Hs).
       exists evs. auto. }
  5: { destruct (next_open_effect _ s s' (or_intror eq_refl) Hrun) as (evs & -> & Hs).
       exists evs. auto. }
  all: match type of Hrun with
       | run ?c _ = _ =>
           assert (Hl : c <> LongNextOpen) by discriminate;
           assert (Hls : c <> LongShortNextOpen) by discriminate;
           destruct (notification_effect c s s' Hl Hls Hrun)
             as (Hb & Hd & [Hj | [line Hj]])
       end.
  all: first [ exists []; rewrite app_nil_r;
               (split; [ exact Hj | split; [ now left | split; [ exact Hb | exact Hd ] ] ])
             | exists [Print line];
               (split; [ exact Hj
                       | split; [ right; left; now exists line
                                | split; [ exact Hb | exact Hd ] ] ]) ].
Qed.

(** X6: the notification callbacks never touch the broker and never
    request anything; [next_open] never changes the order, price and
    commission attributes. *)
Theorem callbacks_keep_their_lanes (cb : Callback) (s s' : Strategy B)
    (Hrun : run cb s = Ok (tt, s')) :
  match cb with
  | LongNextOpen | LongShortNextOpen =>
      order s' = order s /\ price s' = price s /\ comm s' = comm s
  | _ =>
      broker s' = broker s
      /\ exists evs, journal s' = (journal s ++ evs)%list /\ requests evs = []
  end.
Proof.
  destruct cb as [o | t | | o | t | ].
  3, 6: destruct (run_attributes _ s s' Hrun) as (Ho & Hp & Hc); auto.
  all: match type of Hrun with
       | run ?c _ = _ =>
           assert (Hl : c <> LongNextOpen) by discriminate;
           assert (Hls : c <> LongShortNextOpen) by discriminate;
           destruct (notification_effect c s s' Hl Hls Hrun)
             as (Hb & Hd & [Hj | [line Hj]])
       end.
  all: split; [ assumption | ].
  all: first [ exists []; rewrite app_nil_r; now split
             | exists [Print line]; now split ].
Qed.


(** X1: in every run that starts from [__init__], whatever the host does
    and whichever callbacks of either file it calls, [self.order] is [None]
    afterwards: no callback ever stores an order in it. *)
Theorem order_attribute_stays_none (steps : list (Step B)) (b : B) (bar : Bar)
    (s' : Strategy B)
    (Hexec : exec steps (init b bar) = Ok s') :
  order s' = None.
Proof.
  assert (Hinv : order (init b bar) = None) by reflexivity.
  revert Hinv Hexec. generalize (init b bar).
  induction steps as [ | [cb | b1 bar1] rest IH ]; intros s Hnone Hexec.
  - injection Hexec as <-. exact Hnone.
  - cbn [exec] in Hexec.
    destruct (run cb s) as [[[] s1] | e] eqn:Hrun; [ | discriminate ].
    apply (IH s1); [ | exact Hexec ].
    destruct (run_attributes cb s s1 Hrun) as (Ho & _). rewrite Ho.
    destruct cb; try assumption; destruct (status_in _ _); auto.
  - cbn [exec] in Hexec. apply (IH (host_move b1 bar1 s) Hnone Hexec).
Qed.

(** X3: after any run, [self.price] and [self.comm] are the executed price
    and commission of the last completed buy the long-only [notify_order]
    was called with; when there was none they are what they were at the
    start.  Completed sells, failed orders, trades and [next_open] never
    change them. *)
Theorem long_price_is_last_fill (steps : list (Step B)) (s s' : Strategy B)
    (Hexec : exec steps s = Ok s') :
  price s' = match last_long_fill steps with
             | Some o => Some (executed_price o)
             | None => price s
             end
  /\ comm s' = match last_long_fill steps with
               | Some o => Some (executed_comm o)
               | None => comm s
               end.
Proof.
  revert s Hexec.
  induction steps as [ | [cb | b bar] rest IH ]; intros s Hexec.
  - injection Hexec as <-. now split.
  - cbn [exec] in Hexec.
    destruct (run cb s) as [[[] s1] | e] eqn:Hrun; [ | discriminate ].
    destruct (run_attributes cb s s1 Hrun) as (_ & Hp & Hc).
    destruct (IH s1 Hexec) as (IHp & IHc).
    cbn [last_long_fill]. rewrite IHp, IHc.
    destruct (last_long_fill rest); [ now split | ].
    rewrite Hp, Hc.
    destruct cb as [o | | | | | ]; try now split.
    destruct (is_completed_buy o); now split.
  - cbn [exec] in Hexec.
    destruct (IH _ Hexec) as (IHp & IHc).
    cbn [last_long_fill]. rewrite IHp, IHc.
    destruct (last_long_fill rest); now split.
Qed.

(** X2: in every run of the long-and-short file from [__init__],
    [self.price] and [self.comm] are still [None] afterwards: that file
    never writes them. *)
Theorem long_short_never_stores_fill (steps : list (Step B)) (b : B) (bar : Bar)
    (s' : Strategy B)
    (Hvariant : forallb long_short_step steps = true)
    (Hexec : exec steps (init b bar) = Ok s') :
  price s' = None /\ comm s' = None.
Proof.
  assert (Hinv : price (init b bar) = None /\ comm (init b bar) = None)
    by (split; reflexivity).
  revert Hinv Hexec. generalize (init b bar).
  induction steps as [ | st rest IH ]; intros s Hnone Hexec.
  - injection Hexec as <-. exact Hnone.
  - cbn [forallb] in Hvariant. apply andb_true_iff in Hvariant.
    destruct Hvariant as [Hst Hrest].
    destruct st as [cb | b1 bar1]; cbn [exec] in Hexec.
    + destruct (run cb s) as [[[] s1] | e] eqn:Hrun; [ | discriminate ].
      apply (IH Hrest s1); [ | exact Hexec ].
      destruct (run_attributes cb s s1 Hrun) as (_ & Hp & Hc).
      rewrite Hp, Hc.
      destruct cb; try discriminate Hst; exact Hnone.
    + apply (IH Hrest (host_move b1 bar1 s) Hnone Hexec).
Qed.

End CallbackEffects.

(* ================================================================= *)
(** ** Whole runs *)

Section Runs.
Context {B : Type} `{Broker B} `{FloatStr}.

Lemma run_lines (cb : Callback) (s s' : Strategy B) :
  run cb s = Ok (tt, s') ->
  exists evs, journal s' = (journal s ++ evs)%list
              /\ Forall (log_line_with emitted_message s) evs.
Proof.
  intros Hrun. destruct cb as [o | t | | o | t | ]; cbn [run] in Hrun.
  - now apply (long_notify_order_lines o).
  - apply (notify_trade_lines t). now left.
  - now apply long_next_open_lines.
  - now apply (long_short_notify_order_lines o).
  - apply (notify_trade_lines t). now right.
  - now apply long_short_next_open_lines.
Qed.

Lemma run_keeps_bar (cb : Callback) (s s' : Strategy B) :
  run cb s = Ok (tt, s') -> data0 s' = data0 s.
Proof.
  intros Hrun. destruct cb as [o | t | | o | t | ].
  3: { destruct (next_open_effect _ s s' (or_introl eq_refl) Hrun) as (evs & -> & _).
       reflexivity. }
  5: { destruct (next_open_effect _ s s' (or_intror eq_refl) Hrun) as (evs & -> & _).
       reflexivity. }
  all: match type of Hrun with
       | run ?c _ = _ =>
           assert (Hl : c <> LongNextOpen) by discriminate;
           assert (Hls : c <> LongShortNextOpen) by discriminate;
           destruct (notification_effect c s s' Hl Hls Hrun) as (_ & Hd & _)
       end; exact Hd.
Qed.

Lemma line_in_run_more (bars bars' : list Bar) (e : Event) :
  incl bars bars' -> line_in_run bars e -> line_in_run bars' e.
Proof.
  intros Hincl. destruct e as [line | i]; [ | trivial ].
  intros (bar & msg & Hin & Hline & Hmsg). exists bar, msg. auto.
Qed.

Lemma log_line_in_run (s : Strategy B) (bars : list Bar) (e : Event) :
  In (data0 s) bars -> log_line_with emitted_message s e -> line_in_run bars e.
Proof.
  intros Hin. destruct e as [line | i]; [ | trivial ].
  intros (msg & Hline & Hmsg). exists (data0 s), msg. auto.
Qed.

(** X4: over a whole run the journal only grows, and every line printed
    during the run is the ISO date of a bar that was current during the
    run (the first one or one the host installed), a comma and a space, and
    a message of the enumerated patterns or the long-only exit message. *)
Theorem run_lines_follow_patterns (steps : list (Step B)) :
  forall (s s' : Strategy B) (Hexec : exec steps s = Ok s'),
  exists evs, journal s' = (journal s ++ evs)%list
              /\ Forall (line_in_run (data0 s :: bars_of steps)) evs.
Proof.
  induction steps as [ | [cb | b bar] rest IH ]; intros s s' Hexec.
  - injection Hexec as <-. exists []. split; [ now rewrite app_nil_r | constructor ].
  - cbn [exec] in Hexec.
    destruct (run cb s) as [[[] s1] | e] eqn:Hrun; [ | discriminate ].
    destruct (run_lines cb s s1 Hrun) as (evs1 & Hj1 & Hl1).
    destruct (IH s1 s' Hexec) as (evs2 & Hj2 & Hl2).
    rewrite (run_keeps_bar cb s s1 Hrun) in Hl2.
    exists (evs1 ++ evs2)%list. split.
    + now rewrite Hj2, Hj1, app_assoc.
    + apply Forall_app. split; [ | exact Hl2 ].
      apply (Forall_impl _ (fun e => log_line_in_run s (data0 s :: bars_of rest) e (or_introl eq_refl)) Hl1).
  - cbn [exec] in Hexec.
    destruct (IH _ s' Hexec) as (evs & Hj & Hl).
    exists evs. split; [ exact Hj | ].
    cbn [host_move data0 bars_of] in Hl |- *.
    apply (Forall_impl _ (fun e => line_in_run_more (bar :: bars_of rest) _ e
                                     (incl_tl (data0 s) (incl_refl _))) Hl).
Qed.

End Runs.

(* ================================================================= *)
(** ** Exceptions *)

Section Raises.
Context {B : Type} `{Broker B} `{FloatStr}.

Lemma long_short_next_open_returns (s : Strategy B) (n : Z) :
  all_in_size (getcash (broker s)) (bar_open (data0 s)) = Ok n ->
  exists s', LongShortStrat.next_open s = Ok (tt, s').
Proof.
  intros Hsize.
  unfold LongShortStrat.next_open, self_position_size, self_data, broker_getcash,
         buy, sell, close, bind, ret, log, modify, gets, lift.
  rewrite Hsize.
  repeat match goal with
         | |- context [if ?c then _ else _] => destruct c
         end; eexists; reflexivity.
Qed.

Lemma long_next_open_returns (s : Strategy B) :
  position_size (broker s) <> 0
  \/ Py.gt (bar_predicted (data0 s)) (Py.of_Z 0) = false ->
  exists s', LongStrat.next_open s = Ok (tt, s').
Proof.
  intros Hcase.
  destruct (Z.eq_dec (position_size (broker s)) 0) as [Hflat | Hheld].
  - destruct Hcase as [Hheld | Hbull]; [ contradiction | ].
    exists s. now apply long_idle_flat.
  - destruct (Py.lt (bar_predicted (data0 s)) (Py.of_Z 0)) eqn:Hbear.
    + eexists. now apply long_exit.
    + exists s. now apply long_idle_held.
Qed.

(** X7: the notification callbacks never raise.  The long-only
    [next_open] raises exactly when the position is flat, the forecast is
    bullish and the size computation raises; the long-and-short [next_open]
    raises exactly when the size computation raises, whatever the position
    and the forecast, because it computes the size first.  The exception is
    the one of the size computation. *)
Theorem callback_raises_only_on_size (cb : Callback) (s : Strategy B) (e : Py.exn) :
  run cb s = Raise e
  <-> (cb = LongNextOpen
       /\ position_size (broker s) = 0
       /\ Py.gt (bar_predicted (data0 s)) Py.fzero = true
       /\ all_in_size (getcash (broker s)) (bar_open (data0 s)) = Raise e)
      \/ (cb = LongShortNextOpen
          /\ all_in_size (getcash (broker s)) (bar_open (data0 s)) = Raise e).
Proof.
  split.
  - destruct cb as [o | t | | o | t | ]; cbn [run].
    + callback_unfold. destruct (status o), (isbuy o); discriminate.
    + callback_unfold. destruct (isclosed t); discriminate.
    + intros Hraise. left.
      destruct (Z.eq_dec (position_size (broker s)) 0) as [Hflat | Hheld];
        [ destruct (Py.gt (bar_predicted (data0 s)) (Py.of_Z 0)) eqn:Hbull | ].
      * rewrite (long_entry s Hflat Hbull) in Hraise.
        destruct (all_in_size _ _) as [n | e']; [ discriminate | ].
        injection Hraise as ->. auto.
      * destruct (long_next_open_returns s (or_intror Hbull)) as [s' Hok]. congruence.
      * destruct (long_next_open_returns s (or_introl Hheld)) as [s' Hok]. congruence.
    + callback_unfold. destruct (status o); discriminate.
    + callback_unfold. destruct (isclosed t); discriminate.
    + intros Hraise. right. split; [ reflexivity | ].
      destruct (all_in_size _ _) as [n | e'] eqn:Hsize.
      * destruct (long_short_next_open_returns s n Hsize) as [s' Hok]. congruence.
      * rewrite (long_short_size_raises s e' Hsize) in Hraise. congruence.
  - intros [(-> & Hflat & Hbull & Hsize) | (-> & Hsize)]; cbn [run].
    + rewrite (long_entry s Hflat Hbull), Hsize. reflexivity.
    + now apply long_short_size_raises.
Qed.

(** X8: a NaN forecast counts as neutral, like a zero one: the long-only
    [next_open] returns with the state unchanged; the long-and-short
    [next_open] does so when the size can be computed and otherwise raises
    what the size computation raises. *)
Theorem neutral_forecast_is_inert (s : Strategy B)
    (Hneutral : bar_predicted (data0 s) = S754_nan
                \/ Py.eq (bar_predicted (data0 s)) Py.fzero = true) :
  LongStrat.next_open s = Ok (tt, s)
  /\ LongShortStrat.next_open s
     = match all_in_size (getcash (broker s)) (bar_open (data0 s)) with
       | Ok _ => Ok (tt, s)
       | Raise e => Raise e
       end.
Proof.
  assert (Hbull : Py.gt (bar_predicted (data0 s)) (Py.of_Z 0) = false
                  /\ Py.lt (bar_predicted (data0 s)) (Py.of_Z 0) = false).
  { destruct Hneutral as [-> | Hz]; [ now split | ].
    destruct (bar_predicted (data0 s)) as [ [ | ] | [ | ] | | [ | ] m e ];
      try discriminate Hz; now split. }
  destruct Hbull as [Hbull Hbear]. split.
  - destruct (Z.eq_dec (position_size (broker s)) 0) as [Hflat | Hheld].
    + now apply long_idle_flat.
    + now apply long_idle_held.
  - destruct (all_in_size _ _) as [n | e] eqn:Hsize;
      [ | now apply long_short_size_raises ].
    destruct (Z.lt_trichotomy (position_size (broker s)) 0) as [Hs | [Hf | Hl]].
    + now apply (long_short_idle_short s n).
    + now apply (long_short_idle_flat s n).
    + now apply (long_short_idle_long s n).
Qed.

(** X9: on a flat position with a bullish forecast both files do the same:
    the same line, the same BUY, or the same exception. *)
Theorem variants_agree_on_long_entry (s : Strategy B)
    (Hflat : position_size (broker s) = 0)
    (Hbull : Py.gt (bar_predicted (data0 s)) Py.fzero = true) :
  LongStrat.next_open s = LongShortStrat.next_open s.
Proof.
  rewrite (long_entry s Hflat Hbull).
  destruct (all_in_size _ _) as [n | e] eqn:Hsize.
  - now rewrite (long_short_entry_long s n Hsize Hflat Hbull).
  - now rewrite (long_short_size_raises s e Hsize).
Qed.

(** X10: the two [notify_order] functions give the same result for every
    status but Completed, and for Completed they never do: the long-only
    one prints a line, the long-and-short one does not. *)
Theorem notify_order_variants_differ_on_completed (o : Order) (s : Strategy B) :
  (status o <> Completed ->
     LongStrat.notify_order o s = LongShortStrat.notify_order o s)
  /\ (status o = Completed ->
        LongStrat.notify_order o s <> LongShortStrat.notify_order o s).
Proof.
  split.
  - intros Hst. callback_unfold. destruct (status o); try reflexivity.
    now contradiction Hst.
  - intros Hst Heq.
    rewrite (long_completed_reported o s Hst) in Heq.
    revert Heq. callback_unfold. rewrite Hst. simpl.
    intros Heq. injection Heq as Heq.
    assert (Hlen : List.length (journal s ++ [Print ""])%list = List.length (journal s)).
    { destruct (isbuy o); apply (f_equal journal) in Heq; cbn [journal set_order] in Heq;
        apply (f_equal (@List.length Event)) in Heq;
        rewrite length_app in Heq |- *; cbn [List.length] in Heq |- *; lia. }
    rewrite length_app in Hlen. cbn [List.length] in Hlen. lia.
Qed.

End Raises.

(* ================================================================= *)
(** ** More on the size *)

(** Rounding a non-negative quotient never gives NaN. *)
Lemma round_not_nan (N D q e : Z) (loc : location) (sg : bool) :
  holds_quotient N D (shr_record_of_loc q loc) ->
  binary_round_aux Py.prec Py.emax sg q e loc <> S754_nan.
Proof.
  intros Hinv.
  unfold binary_round_aux, shr_fexp.
  destruct (shr_quotient N D _ e (fexp Py.prec Py.emax (Zdigits2 q + e) - e) Hinv)
    as (k1 & Hk1 & He1 & Hinv1).
  destruct (shr (shr_record_of_loc q loc) e _) as [mrs1 e1].
  cbn [fst snd] in He1, Hinv1.
  destruct Hinv1 as (HD1 & HN & Hm1 & _).
  assert (Hm1pos : 0 <= shr_m mrs1) by (rewrite Hm1; apply Z.div_pos; lia).
  set (m2 := round_nearest_even (shr_m mrs1) (loc_of_shr_record mrs1)).
  assert (Hm2 : 0 <= m2)
    by (unfold m2; destruct (round_nearest_even_cases mrs1) as [-> | [-> _]]; lia).
  assert (Hinv2 : holds_quotient m2 1 (shr_record_of_loc m2 loc_Exact)).
  { repeat split; try lia.
    - cbn [shr_record_of_loc shr_m]. now rewrite Z.div_1_r.
    - discriminate. }
  destruct (shr_quotient m2 1 _ e1 (fexp Py.prec Py.emax (Zdigits2 m2 + e1) - e1) Hinv2)
    as (k2 & Hk2 & He2 & Hinv3).
  destruct (shr (shr_record_of_loc m2 loc_Exact) e1 _) as [mrs2 e2].
  cbn [fst snd] in He2, Hinv3.
  destruct Hinv3 as (HD3 & _ & Hm3 & _).
  assert (Hm3pos : 0 <= shr_m mrs2) by (rewrite Hm3; apply Z.div_pos; lia).
  destruct (shr_m mrs2) as [ | p | p ]; [ discriminate | | lia ].
  destruct (e2 <=? Py.emax - Py.prec); discriminate.
Qed.

Lemma div_finite_not_nan (sx sy : bool) (mx my : positive) (ex ey : Z) :
  SFdiv Py.prec Py.emax (S754_finite sx mx ex) (S754_finite sy my ey) <> S754_nan.
Proof.
  unfold SFdiv.
  destruct (div_core_quotient mx my ex ey) as (q & loc & -> & Hquot).
  apply (round_not_nan _ _ _ _ _ _ Hquot).
Qed.

(** X11: the size computation raises ZeroDivisionError exactly when the
    open price is zero (of either sign); with a finite cash and a price that
    is not NaN it never raises ValueError, so what is left is
    OverflowError. *)
Theorem size_exceptions (cash price : float) :
  (all_in_size cash price = Raise Py.ZeroDivisionError
   <-> Py.eq price Py.fzero = true)
  /\ (is_finite cash = true -> is_nan price = false ->
      all_in_size cash price <> Raise Py.ValueError).
Proof.
  split; [ split | ].
  - unfold all_in_size, Py.truediv.
    destruct (Py.eq price Py.fzero); [ reflexivity | ].
    cbn [Py.rbind]. destruct (SFdiv Py.prec Py.emax cash price); discriminate.
  - intros Hz. unfold all_in_size, Py.truediv. now rewrite Hz.
  - intros Hfin Hnan. unfold all_in_size, Py.truediv.
    destruct (Py.eq price Py.fzero) eqn:Hz; [ discriminate | ].
    cbn [Py.rbind].
    destruct cash as [sx | sx | | sx mx ex]; try discriminate Hfin;
      destruct price as [sy | sy | | sy my ey]; try discriminate Hnan;
      try discriminate Hz; try (cbn; discriminate).
    pose proof (div_finite_not_nan sx sy mx my ex ey) as Hnn.
    destruct (SFdiv Py.prec Py.emax _ _); try discriminate. now contradiction Hnn.
Qed.

(** X12: for positive cash and a positive open price a computed size is
    never negative. *)
Theorem size_of_positives_not_negative (cash price : float) (n : Z)
    (Hcash : Py.gt cash Py.fzero = true)
    (Hprice : Py.gt price Py.fzero = true)
    (Hsize : all_in_size cash price = Ok n) :
  0 <= n.
Proof.
  unfold all_in_size, Py.truediv in Hsize.
  rewrite (gt_zero_not_eq_zero price Hprice) in Hsize. cbn [Py.rbind] in Hsize.
  pose proof (div_pos_pos_sign cash price Hcash Hprice) as Hsign.
  destruct (SFdiv Py.prec Py.emax cash price) as [s | s | | s m e];
    try discriminate Hsize.
  - injection Hsize as <-. lia.
  - subst s. injection Hsize as <-. cbn [cond_Zopp].
    apply Z.shiftl_nonneg. lia.
Qed.

Lemma binary_round_aux_opp (sg : bool) (m e : Z) (l : location) :
  binary_round_aux Py.prec Py.emax (negb sg) m e l
  = SFopp (binary_round_aux Py.prec Py.emax sg m e l).
Proof.
  unfold binary_round_aux.
  destruct (shr_fexp Py.prec Py.emax m e l) as [mrs1 e1].
  destruct (shr_fexp Py.prec Py.emax _ e1 loc_Exact) as [mrs2 e2].
  destruct (shr_m mrs2); try reflexivity.
  destruct (e2 <=? Py.emax - Py.prec); reflexivity.
Qed.

Lemma div_opp_l (x y : float) :
  SFdiv Py.prec Py.emax (SFopp x) y = SFopp (SFdiv Py.prec Py.emax x y).
Proof.
  destruct x as [sx | sx | | sx mx ex], y as [sy | sy | | sy my ey];
    cbn [SFdiv SFopp]; rewrite <- ?negb_xorb_l; try reflexivity.
  destruct (SFdiv_core_binary Py.prec Py.emax (Z.pos mx) ex (Z.pos my) ey)
    as [[mz ez] lz].
  apply binary_round_aux_opp.
Qed.

Lemma div_opp_r (x y : float) :
  SFdiv Py.prec Py.emax x (SFopp y) = SFopp (SFdiv Py.prec Py.emax x y).
Proof.
  destruct x as [sx | sx | | sx mx ex], y as [sy | sy | | sy my ey];
    cbn [SFdiv SFopp]; rewrite <- ?negb_xorb_r; try reflexivity.
  destruct (SFdiv_core_binary Py.prec Py.emax (Z.pos mx) ex (Z.pos my) ey)
    as [[mz ez] lz].
  apply binary_round_aux_opp.
Qed.

Lemma int_opp (x : float) : Py.int (SFopp x) = rmap Z.opp (Py.int x).
Proof.
  destruct x as [s | s | | s m e]; try reflexivity.
  cbn [SFopp Py.int rmap]. f_equal. destruct s; cbn [negb cond_Zopp]; lia.
Qed.

Lemma eq_zero_opp (x : float) : Py.eq (SFopp x) Py.fzero = Py.eq x Py.fzero.
Proof. destruct x as [s | s | | [ | ] m e]; try destruct s; reflexivity. Qed.

Lemma size_opp (cash price : float) :
  all_in_size (fneg cash) price = rmap Z.opp (all_in_size cash price)
  /\ all_in_size cash (fneg price) = rmap Z.opp (all_in_size cash price).
Proof.
  unfold all_in_size, Py.truediv, fneg. rewrite eq_zero_opp.
  destruct (Py.eq price Py.fzero); [ now split | ].
  cbn [Py.rbind]. rewrite div_opp_l, div_opp_r, !int_opp. now split.
Qed.

(** X13: [int] truncates toward zero, so negating the cash or the price
    negates the size (and leaves an exception as it is), and negating
    both leaves the size. *)
Theorem size_is_odd (cash price : float) :
  all_in_size (fneg cash) price = rmap Z.opp (all_in_size cash price)
  /\ all_in_size cash (fneg price) = rmap Z.opp (all_in_size cash price)
  /\ all_in_size (fneg cash) (fneg price) = all_in_size cash price.
Proof.
  destruct (size_opp cash price) as [Hl Hr].
  split; [ exact Hl | split; [ exact Hr | ] ].
  rewrite (proj1 (size_opp cash (fneg price))), Hr.
  destruct (all_in_size cash price) as [n | e]; cbn [rmap]; [ | reflexivity ].
  now rewrite Z.opp_involutive.
Qed.

(** X14: when the magnitude of the cash is positive and below that of the
    price, the size is zero also when cash, price or both are negative. *)
Theorem small_magnitude_size_zero (cash price : float)
    (Vcash : valid_binary Py.prec Py.emax cash = true)
    (Vprice : valid_binary Py.prec Py.emax price = true)
    (Hcash : Py.gt cash Py.fzero = true)
    (Hsmall : Py.lt cash price = true) :
  all_in_size (fneg cash) price = Ok 0
  /\ all_in_size cash (fneg price) = Ok 0
  /\ all_in_size (fneg cash) (fneg price) = Ok 0.
Proof.
  pose proof (small_cash_size_zero cash price Vcash Vprice Hcash Hsmall) as Hz.
  destruct (size_opp cash price) as [Hl Hr].
  rewrite Hz in Hl, Hr. cbn [rmap Z.opp] in Hl, Hr.
  split; [ exact Hl | split; [ exact Hr | ] ].
  rewrite (proj1 (size_opp cash (fneg price))), Hr. reflexivity.
Qed.

(* ================================================================= *)
(** ** Positions after an exit or a reversal *)

Section Positions.
Context {B : Type} `{Broker B} `{FloatStr}.

(** What the requests mean for a broker that carries them out. *)
Hypothesis buy_adds :
  forall n b, position_size (react (Buy n) b) = position_size b + n.
Hypothesis sell_subtracts :
  forall n b, position_size (react (Sell n) b) = position_size b - n.
Hypothesis close_flattens :
  forall b, position_size (react Close b) = 0.

(** X16: at a broker that carries requests out at once, a long-and-short
    reversal ends short by the size computed when [next_open] started
    (long position, bearish forecast), or long by it (short position,
    bullish forecast). *)
Theorem reversal_opens_entry_size (s : Strategy B) (n : Z)
    (Hsize : all_in_size (getcash (broker s)) (bar_open (data0 s)) = Ok n) :
  (0 < position_size (broker s) ->
   Py.lt (bar_predicted (data0 s)) Py.fzero = true ->
   exists s', LongShortStrat.next_open s = Ok (tt, s')
              /\ position_size (broker s') = - n)
  /\ (position_size (broker s) < 0 ->
      Py.gt (bar_predicted (data0 s)) Py.fzero = true ->
      exists s', LongShortStrat.next_open s = Ok (tt, s')
                 /\ position_size (broker s') = n).
Proof.
  split.
  - intros Hpos Hbear. eexists.
    split; [ now apply (long_short_reverse_long s n) | ].
    cbn [after broker]. rewrite sell_subtracts, close_flattens. lia.
  - intros Hpos Hbull. eexists.
    split; [ now apply (long_short_reverse_short s n) | ].
    cbn [after broker]. rewrite buy_adds, close_flattens. lia.
Qed.

End Positions.

(* ================================================================= *)
(** ** A round trip of the long-only strategy *)

Section RoundTrip.
Context {B : Type} `{Broker B} `{FloatStr}.

Lemma long_trade_reported (t : Trade) (s : Strategy B) :
  isclosed t = true ->
  LongStrat.notify_trade t s = Ok (tt, after s (broker s) [line_of s (result_msg t)]).
Proof.
  intros Hc. callback_unfold. now rewrite Hc.
Qed.

(** X17: a round trip of the long-only file.  Flat with a bullish forecast
    and size [n]; the buy completes; with a position and a bearish forecast
    on a later bar the exit follows; the sell completes and the trade is
    reported closed.  The run returns, and the journal has grown by
    exactly: the LONG CREATED line, BUY [n], the BUY EXECUTED line, the
    SELL CREATED line, SELL of the held size, the SELL EXECUTED line and
    the OPERATION RESULT line, each line with the date of the bar current
    at the time; price and commission are those of the buy. *)
Theorem long_round_trip (s : Strategy B) (n : Z)
    (o1 o2 : Order) (t : Trade) (b1 b2 b3 : B) (bar1 bar2 bar3 : Bar)
    (Hflat : position_size (broker s) = 0)
    (Hbull : Py.gt (bar_predicted (data0 s)) Py.fzero = true)
    (Hsize : all_in_size (getcash (broker s)) (bar_open (data0 s)) = Ok n)
    (Hfill1 : status o1 = Completed /\ isbuy o1 = true)
    (Hheld : position_size b2 <> 0)
    (Hbear : Py.lt (bar_predicted bar2) Py.fzero = true)
    (Hfill2 : status o2 = Completed /\ isbuy o2 = false)
    (Hclosed : isclosed t = true) :
  exec [Call LongNextOpen;
        Host b1 bar1; Call (LongNotifyOrder o1);
        Host b2 bar2; Call LongNextOpen;
        Host b3 bar3; Call (LongNotifyOrder o2); Call (LongNotifyTrade t)] s
  = Ok (mkStrategy None (Some (executed_price o1)) (Some (executed_comm o1)) b3 bar3
          (journal s ++
           [Print (isodate (data0 s) ++ ", "
                   ++ created_msg "LONG" n (getcash (broker s)) (data0 s));
            Submit (Buy n);
            Print (isodate bar1 ++ ", " ++ executed_msg "BUY" o1);
            Print (isodate bar2 ++ ", SELL CREATED --- Size: "
                   ++ Py.str_int (position_size b2));
            Submit (Sell (position_size b2));
            Print (isodate bar3 ++ ", " ++ executed_msg "SELL" o2);
            Print (isodate bar3 ++ ", " ++ result_msg t)])).
Proof.
  destruct Hfill1 as [Hst1 Hbuy1]. destruct Hfill2 as [Hst2 Hbuy2].
  cbn [exec run].
  rewrite (long_entry s Hflat Hbull), Hsize.
  match goal with
  | |- context [LongStrat.notify_order o1 ?st] =>
      rewrite (long_completed_reported o1 st Hst1), Hbuy1
  end.
  match goal with
  | |- context [LongStrat.next_open ?st] =>
      rewrite (long_exit st Hheld Hbear)
  end.
  match goal with
  | |- context [LongStrat.notify_order o2 ?st] =>
      rewrite (long_completed_reported o2 st Hst2), Hbuy2
  end.
  match goal with
  | |- context [LongStrat.notify_trade t ?st] =>
      rewrite (long_trade_reported t st Hclosed)
  end.
  unfold after, host_move, line_of. cbn [order price comm broker data0 journal].
  rewrite <- !app_assoc. reflexivity.
Qed.

End RoundTrip.

(* ================================================================= *)
(** ** The further theorems at the example inputs *)

Lemma order_attribute_stays_none_witness :
  order (outcome (exec long_steps (flat_100 bar_bullish)) (flat_100 bar_bullish))
  = None.
Proof.
  apply (order_attribute_stays_none long_steps (mkAccount (Py.of_Z 100) 0) bar_bullish).
  vm_compute. reflexivity.
Defined.

Lemma long_short_never_stores_fill_witness :
  price (outcome (exec long_short_steps (flat_100 bar_bullish)) (flat_100 bar_bullish))
  = None
  /\ comm (outcome (exec long_short_steps (flat_100 bar_bullish)) (flat_100 bar_bullish))
     = None.
Proof.
  apply (long_short_never_stores_fill long_short_steps
           (mkAccount (Py.of_Z 100) 0) bar_bullish).
  - reflexivity.
  - vm_compute. reflexivity.
Defined.

Lemma long_price_is_last_fill_witness :
  price (outcome (exec long_steps (flat_100 bar_bullish)) (flat_100 bar_bullish))
  = Some (Py.of_decimal 1015 1)
  /\ comm (outcome (exec long_steps (flat_100 bar_bullish)) (flat_100 bar_bullish))
     = Some (Py.of_Z 5).
Proof.
  refine (long_price_is_last_fill long_steps (flat_100 bar_bullish) _ _).
  vm_compute. reflexivity.
Defined.

Lemma run_lines_follow_patterns_witness :
  exists evs,
    journal (outcome (exec long_steps (flat_100 bar_bullish)) (flat_100 bar_bullish))
    = (journal (flat_100 bar_bullish) ++ evs)%list
    /\ Forall (line_in_run (data0 (flat_100 bar_bullish) :: bars_of long_steps)) evs.
Proof.
  apply (run_lines_follow_patterns long_steps (flat_100 bar_bullish)).
  vm_compute. reflexivity.
Defined.

Lemma callback_adds_one_shape_witness :
  exists evs,
    [Print "2024-01-03, CLOSE LONG POSITION --- Size: 5"; Submit Close; Submit (Sell 2)]
    = (journal (long_5 bar_bearish) ++ evs)%list
    /\ callback_shape evs
    /\ mkAccount (Py.of_Z 100) 5 = settle (requests evs) (broker (long_5 bar_bearish))
    /\ bar_bearish = data0 (long_5 bar_bearish).
Proof.
  apply (callback_adds_one_shape LongShortNextOpen (long_5 bar_bearish)
           (mkStrategy None None None (mkAccount (Py.of_Z 100) 5) bar_bearish
              [Print "2024-01-03, CLOSE LONG POSITION --- Size: 5";
               Submit Close; Submit (Sell 2)])).
  reflexivity.
Defined.

Lemma callbacks_keep_their_lanes_witness :
  mkAccount (Py.of_Z 100) 0 = broker (flat_100 bar_bullish)
  /\ exists evs,
       [Print "2024-01-02, Order Failed"] = (journal (flat_100 bar_bullish) ++ evs)%list
       /\ requests evs = [].
Proof.
  apply (callbacks_keep_their_lanes (LongNotifyOrder rejected_order)
           (flat_100 bar_bullish)
           (mkStrategy None None None (mkAccount (Py.of_Z 100) 0) bar_bullish
              [Print "2024-01-02, Order Failed"])).
  reflexivity.
Defined.

Lemma callback_raises_only_on_size_witness :
  run LongShortNextOpen (long_5 bar_zero_open) = Raise Py.ZeroDivisionError
  /\ run LongNextOpen (flat_100 bar_zero_open) = Raise Py.ZeroDivisionError.
Proof.
  split.
  - apply (proj2 (callback_raises_only_on_size LongShortNextOpen
                    (long_5 bar_zero_open) Py.ZeroDivisionError)).
    right. split; reflexivity.
  - apply (proj2 (callback_raises_only_on_size LongNextOpen
                    (flat_100 bar_zero_open) Py.ZeroDivisionError)).
    left. repeat split.
Defined.

Lemma neutral_forecast_is_inert_witness :
  LongStrat.next_open (long_5 bar_nan) = Ok (tt, long_5 bar_nan)
  /\ LongShortStrat.next_open (long_5 bar_nan) = Ok (tt, long_5 bar_nan).
Proof.
  exact (neutral_forecast_is_inert (long_5 bar_nan) (or_introl eq_refl)).
Defined.

Lemma variants_agree_on_long_entry_witness :
  LongStrat.next_open (flat_100 bar_bullish)
  = LongShortStrat.next_open (flat_100 bar_bullish).
Proof.
  apply (variants_agree_on_long_entry (flat_100 bar_bullish)); reflexivity.
Defined.

Lemma notify_order_variants_differ_on_completed_witness :
  LongStrat.notify_order rejected_order (flat_100 bar_bullish)
  = LongShortStrat.notify_order rejected_order (flat_100 bar_bullish)
  /\ LongStrat.notify_order completed_buy (flat_100 bar_bullish)
     <> LongShortStrat.notify_order completed_buy (flat_100 bar_bullish).
Proof.
  split.
  - apply (proj1 (notify_order_variants_differ_on_completed rejected_order
                    (flat_100 bar_bullish))).
    discriminate.
  - apply (proj2 (notify_order_variants_differ_on_completed completed_buy
                    (flat_100 bar_bullish))).
    reflexivity.
Defined.

Lemma size_exceptions_witness :
  all_in_size (Py.of_Z 100) (Py.of_Z 0) = Raise Py.ZeroDivisionError
  /\ all_in_size (Py.of_Z 100) (Py.of_Z 33) <> Raise Py.ValueError.
Proof.
  split.
  - apply (proj2 (proj1 (size_exceptions (Py.of_Z 100) (Py.of_Z 0)))). reflexivity.
  - apply (proj2 (size_exceptions (Py.of_Z 100) (Py.of_Z 33))); reflexivity.
Defined.

Lemma size_of_positives_not_negative_witness :
  all_in_size (Py.of_Z 100) (Py.of_Z 33) = Ok 3 /\ 0 <= 3.
Proof.
  split; [ reflexivity | ].
  apply (size_of_positives_not_negative (Py.of_Z 100) (Py.of_Z 33) 3); reflexivity.
Defined.

Lemma small_magnitude_size_zero_witness :
  all_in_size (fneg (Py.of_Z 20)) (Py.of_Z 33) = Ok 0
  /\ all_in_size (Py.of_Z 20) (fneg (Py.of_Z 33)) = Ok 0
  /\ all_in_size (fneg (Py.of_Z 20)) (fneg (Py.of_Z 33)) = Ok 0.
Proof.
  apply (small_magnitude_size_zero (Py.of_Z 20) (Py.of_Z 33)); reflexivity.
Defined.

Lemma reversal_opens_entry_size_witness :
  exists s', LongShortStrat.next_open long_10_settling = Ok (tt, s')
             /\ position_size (broker s') = - 2.
Proof.
  refine (proj1 (@reversal_opens_entry_size Till settling integral_prices
                   (fun n b => eq_refl) (fun n b => eq_refl)
                   (fun b => Z.add_opp_diag_r _) long_10_settling 2 _) _ _);
    reflexivity.
Defined.

Lemma long_round_trip_witness :
  exec long_steps (flat_100 bar_bullish)
  = Ok (mkStrategy None (Some (Py.of_decimal 1015 1)) (Some (Py.of_Z 5))
          (mkAccount (Py.of_Z 151) 0) bar_bearish
          [Print "2024-01-02, LONG CREATED --- Size: 3, Cash: 100.00, Open: 33.0, Close: 34.0";
           Submit (Buy 3);
           Print "2024-01-02, BUY EXECUTED --- Price: 101.50, Cost: 10000.00, Commission: 5.00";
           Print "2024-01-03, SELL CREATED --- Size: 3";
           Submit (Sell 3);
           Print "2024-01-03, SELL EXECUTED --- Price: 101.50, Cost: 10000.00, Commission: 5.00";
           Print "2024-01-03, OPERATION RESULT --- Gross: 120.46, Net: 110.10"]).
Proof.
  refine (long_round_trip (flat_100 bar_bullish) 3 completed_buy completed_sell
            closed_trade _ _ _ _ _ _ _ _ _ _ _ _ _ _);
    first [ reflexivity | discriminate | split; reflexivity ].
Defined.

(* ================================================================= *)
(** ** The size against the floor of the exact quotient *)

(** What [binary_round_aux] computes, written with divisions. *)
Lemma round_as_division (N D q e : Z) (loc : location) (sg : bool) :
  holds_quotient N D (shr_record_of_loc q loc) ->
  exists k1 m2 k2,
    k1 = Z.max 0 (fexp Py.prec Py.emax (Zdigits2 q + e) - e)
    /\ (m2 = N / (D * 2 ^ k1) \/ m2 = N / (D * 2 ^ k1) + 1)
    /\ k2 = Z.max 0 (fexp Py.prec Py.emax (Zdigits2 m2 + (e + k1)) - (e + k1))
    /\ 0 <= m2 / 2 ^ k2
    /\ binary_round_aux Py.prec Py.emax sg q e loc
       = match m2 / 2 ^ k2 with
         | Z.pos m => if e + k1 + k2 <=? Py.emax - Py.prec
                      then S754_finite sg m (e + k1 + k2)
                      else S754_infinity sg
         | _ => S754_zero sg
         end.
Proof.
  intros Hinv.
  unfold binary_round_aux, shr_fexp.
  destruct (shr_quotient N D _ e (fexp Py.prec Py.emax (Zdigits2 q + e) - e) Hinv)
    as (k1 & Hk1 & He1 & Hinv1).
  destruct (shr (shr_record_of_loc q loc) e _) as [mrs1 e1].
  cbn [fst snd] in He1, Hinv1. subst e1.
  destruct Hinv1 as (HD1 & HN & Hm1 & _).
  assert (Hm1pos : 0 <= N / (D * 2 ^ k1)) by (apply Z.div_pos; lia).
  set (m2 := round_nearest_even (shr_m mrs1) (loc_of_shr_record mrs1)).
  assert (Hm2 : m2 = N / (D * 2 ^ k1) \/ m2 = N / (D * 2 ^ k1) + 1)
    by (unfold m2; destruct (round_nearest_even_cases mrs1) as [-> | [-> _]];
        rewrite Hm1; auto).
  assert (Hinv2 : holds_quotient m2 1 (shr_record_of_loc m2 loc_Exact)).
  { repeat split; try lia.
    - cbn [shr_record_of_loc shr_m]. now rewrite Z.div_1_r.
    - discriminate. }
  destruct (shr_quotient m2 1 _ (e + k1)
              (fexp Py.prec Py.emax (Zdigits2 m2 + (e + k1)) - (e + k1)) Hinv2)
    as (k2 & Hk2 & He2 & Hinv3).
  destruct (shr (shr_record_of_loc m2 loc_Exact) (e + k1) _) as [mrs2 e2].
  cbn [fst snd] in He2, Hinv3. subst e2.
  destruct Hinv3 as (_ & _ & Hm3 & _). rewrite Z.mul_1_l in Hm3.
  assert (Hm3pos : 0 <= m2 / 2 ^ k2)
    by (apply Z.div_pos; [ lia | apply Z.pow_pos_nonneg; lia ]).
  exists k1, m2, k2. rewrite <- Hm3.
  repeat split; try assumption; try (rewrite Hm3; assumption).
  destruct (shr_m mrs2) as [ | p | p ]; try reflexivity. lia.
Qed.

Lemma top_bits (a : Z) (d : Z) :
  0 < a -> Zdigits2 a = d -> 53 <= d -> 2 ^ 52 <= a / 2 ^ (d - 53).
Proof.
  intros Ha Hd Hd53.
  destruct a as [ | p | p ]; try lia. cbn [Zdigits2] in Hd.
  pose proof (digits2_pos_lower p) as Hlow. rewrite Hd in Hlow.
  assert (Hsplit : 2 ^ d = 2 * 2 ^ 52 * 2 ^ (d - 53)).
  { replace d with (1 + 52 + (d - 53)) at 1 by lia.
    rewrite !Z.pow_add_r by lia. reflexivity. }
  assert (Hp : 0 < 2 ^ (d - 53)) by (apply Z.pow_pos_nonneg; lia).
  apply Z.div_le_lower_bound; [ assumption | ].
  change (2 ^ 52) with 4503599627370496 in *. lia.
Qed.

Lemma div_succ_le (a b : Z) : 0 < b -> a / b <= (a + 1) / b <= a / b + 1.
Proof.
  intros Hb. split.
  - apply Z.div_le_mono; lia.
  - replace (a / b + 1) with ((a + 1 * b) / b) by (rewrite Z.div_add by lia; reflexivity).
    apply Z.div_le_mono; lia.
Qed.

(** The size against the floor of the exact quotient. *)
Lemma size_near_exact_floor (mx my : positive) (ex ey n : Z) :
  all_in_size (S754_finite false mx ex) (S754_finite false my ey) = Ok n ->
  n < 2 ^ 53 ->
  exists E, exact_floor_div (S754_finite false mx ex) (S754_finite false my ey) = Some E
            /\ E <= n <= E + 1.
Proof.
  intros Hsize Hn.
  eexists. split; [ reflexivity | ]. cbn [xorb cond_Zopp].
  unfold all_in_size, Py.truediv in Hsize.
  cbn [Py.eq SFeqb SFcompare Py.fzero Py.rbind] in Hsize.
  unfold SFdiv in Hsize.
  destruct (div_core_quotient mx my ex ey) as (q & loc & Hcore & Hquot).
  rewrite Hcore in Hsize. cbn [xorb] in Hsize.
  rewrite fexp_binary64 in Hquot, Hsize.
  set (dx := Z.pos (digits2_pos mx)) in *.
  set (dy := Z.pos (digits2_pos my)) in *.
  set (e' := Z.min (Z.max (dx + ex - (dy + ey) - 53) (-1074)) (ex - ey)) in *.
  set (s := ex - ey - e') in *.
  assert (Hs : 0 <= s) by (unfold s, e'; lia).
  assert (Hps : 0 < 2 ^ s) by (apply Z.pow_pos_nonneg; lia).
  destruct (round_as_division _ _ _ e' _ false Hquot)
    as (k1 & m2 & k2 & Hk1 & Hm2 & Hk2 & Hm3pos & Hround).
  rewrite Hround in Hsize. clear Hround.
  rewrite !fexp_binary64 in *.
  pose proof Hquot as (_ & HN & Hq & _). rewrite shr_m_of_loc in Hq.
  set (N := Z.pos mx * 2 ^ s) in *.
  assert (Hk1pos : 0 <= k1) by lia.
  assert (Hk2pos : 0 <= k2) by lia.
  assert (Hpk1 : 0 < 2 ^ k1) by (apply Z.pow_pos_nonneg; lia).
  assert (Hpk2 : 0 < 2 ^ k2) by (apply Z.pow_pos_nonneg; lia).
  set (m1 := N / (Z.pos my * 2 ^ k1)) in *.
  assert (Hm1q : m1 = q / 2 ^ k1)
    by (unfold m1; rewrite Hq, Z.div_div by lia; reflexivity).
  assert (Hq0 : 0 <= q) by (rewrite Hq; apply Z.div_pos; lia).
  assert (Hm1pos : 0 <= m1) by (rewrite Hm1q; apply Z.div_pos; lia).
  set (e1 := e' + k1) in *.
  (* a positive exponent after the first shift means a full mantissa *)
  assert (Hfull1 : 0 < e1 -> 2 ^ 52 <= m1).
  { intros He1. destruct (Z.eq_dec k1 0) as [Hk0 | Hk0].
    - (* no shift: the division itself gave 53 bits *)
      rewrite Hm1q, Hk0, Z.div_1_r.
      assert (He'pos : 0 < e') by (unfold e1 in He1; lia).
      assert (Hk : dx + s >= dy + 53) by (unfold s, e' in *; lia).
      pose proof (digits2_pos_lower mx) as Hlx. fold dx in Hlx.
      pose proof (digits2_pos_upper my) as Huy. fold dy in Huy.
      rewrite Hq. apply Z.div_le_lower_bound; [ lia | ].
      assert (Hpow : 2 ^ (dy + 53) <= 2 ^ (dx + s)) by (apply Z.pow_le_mono_r; lia).
      rewrite !Z.pow_add_r in Hpow by (unfold dx, dy; lia).
      unfold N. change (2 ^ 53) with (2 * 2 ^ 52) in Hpow.
      assert (0 < 2 ^ 52) by reflexivity. nia.
    - assert (Hfe : Z.max (Zdigits2 q + e' - 53) (-1074) = e1) by (unfold e1; lia).
      assert (Hdq : Zdigits2 q - 53 = k1) by (unfold e1 in *; lia).
      rewrite Hm1q, <- Hdq.
      apply top_bits; [ | reflexivity | lia ].
      destruct q as [ | p | p ]; [ cbn in Hdq | | ]; lia. }
  set (e3 := e1 + k2) in *.
  remember (m2 / 2 ^ k2) as m3 eqn:Em3def.
  assert (Hm2pos : 0 <= m2) by lia.
  assert (Hm2ge : m1 <= m2) by lia.
  destruct (Z_lt_le_dec 0 e3) as [He3 | He3].
  - (* the result is an integer of at least 2^53 *)
    exfalso.
    assert (Hfull3 : 2 ^ 52 <= m3).
    { destruct (Z.eq_dec k2 0) as [Hk0 | Hk0].
      - rewrite Em3def, Hk0, Z.div_1_r.
        assert (0 < e1) by (unfold e3 in He3; lia). specialize (Hfull1 H). lia.
      - assert (Hdm : Zdigits2 m2 - 53 = k2) by (unfold e3 in *; lia).
        rewrite Em3def, <- Hdm.
        apply top_bits; [ | reflexivity | lia ].
        destruct m2 as [ | p | p ]; [ cbn in Hdm | | ]; lia. }
    change (2 ^ 52) with 4503599627370496 in Hfull3.
    assert (Hpe3 : 2 <= 2 ^ e3).
    { change 2 with (2 ^ 1) at 1. apply Z.pow_le_mono_r; lia. }
    destruct m3 as [ | p | p ]; try lia.
    destruct (e3 <=? Py.emax - Py.prec); [ | discriminate Hsize ].
    injection Hsize as <-. cbn [cond_Zopp] in Hn.
    rewrite Z.shiftl_mul_pow2 in Hn by (unfold e3, e1 in He3; lia).
    fold e1 e3 in Hn.
    change (2 ^ 53) with 9007199254740992 in Hn. nia.
  - (* the result has a fractional unit: the size is m2 / 2^t *)
    set (t := - e1).
    assert (Ht : 0 <= t) by (unfold t, e3 in *; lia).
    assert (Hpt : 0 < 2 ^ t) by (apply Z.pow_pos_nonneg; lia).
    assert (Hnval : n = m2 / 2 ^ t).
    { assert (Hshift : m3 / 2 ^ (- e3) = m2 / 2 ^ t).
      { rewrite Em3def, Z.div_div by (try apply Z.pow_pos_nonneg; lia).
        rewrite <- Z.pow_add_r by lia. f_equal. f_equal. unfold t, e3. lia. }
      destruct m3 as [ | p | p ]; try lia.
      - injection Hsize as <-. rewrite <- Hshift. now rewrite Z.div_0_l by lia.
      - destruct (e3 <=? Py.emax - Py.prec); [ | discriminate Hsize ].
        injection Hsize as <-. cbn [cond_Zopp].
        fold e1 e3. rewrite Z.shiftl_div_pow2 by lia. exact Hshift. }
    assert (HE : (if ey <=? ex
                  then Z.pos mx * 2 ^ (ex - ey) / Z.pos my
                  else Z.pos mx / (Z.pos my * 2 ^ (ey - ex))) = m1 / 2 ^ t).
    { unfold m1. rewrite Z.div_div by lia.
      rewrite <- Z.mul_assoc, <- Z.pow_add_r by lia.
      replace (k1 + t) with (- e') by (unfold t, e1; lia).
      assert (He'neg : e' <= 0) by (unfold e3, e1 in He3; lia).
      unfold N. destruct (Z.leb_spec ey ex) as [Hle | Hgt].
      - replace s with ((ex - ey) + - e') by (unfold s; lia).
        rewrite Z.pow_add_r, Z.mul_assoc by lia.
        rewrite Z.div_mul_cancel_r; [ reflexivity | lia | ].
        pose proof (Z.pow_pos_nonneg 2 (- e')). lia.
      - replace (- e') with ((ey - ex) + s) by (unfold s; lia).
        rewrite Z.pow_add_r, Z.mul_assoc by lia.
        rewrite Z.div_mul_cancel_r; [ reflexivity | | lia ].
        pose proof (Z.pow_pos_nonneg 2 (ey - ex)). lia. }
    rewrite HE, Hnval.
    destruct Hm2 as [-> | ->]; fold m1.
    + lia.
    + apply div_succ_le. assumption.
Qed.

(** For positive operands: truncation is the floor of the rounded
    quotient, and below [2^53] that is the exact floor or one more. *)
Lemma size_of_positive_operands (cash price : float) (n : Z) :
  Py.gt cash Py.fzero = true -> Py.gt price Py.fzero = true ->
  all_in_size cash price = Ok n ->
  floor (SFdiv Py.prec Py.emax cash price) = Ok n
  /\ (is_finite cash = true -> is_finite price = true -> n < 2 ^ 53 ->
      exists E, exact_floor_div cash price = Some E /\ E <= n <= E + 1).
Proof.
  intros Hcash Hprice Hsize. split.
  - unfold all_in_size, Py.truediv in Hsize.
    rewrite (gt_zero_not_eq_zero price Hprice) in Hsize. cbn [Py.rbind] in Hsize.
    rewrite <- Hsize. symmetry. apply int_floor_nonneg.
    pose proof (div_pos_pos_sign cash price Hcash Hprice) as Hs.
    destruct (SFdiv Py.prec Py.emax cash price); trivial.
  - intros Fcash Fprice Hn.
    destruct (gt_zero_cases cash Hcash) as [-> | (mx & ex & ->)];
      [ discriminate Fcash | ].
    destruct (gt_zero_cases price Hprice) as [-> | (my & ey & ->)];
      [ discriminate Fprice | ].
    now apply size_near_exact_floor.
Qed.

(** C3 as stated fails: with cash 0.5 at price 0.1 (both positive) the
    size is 5 while the floor of the exact quotient is 4, with cash 1 at
    price 0.1 it is 10 against 9; and the largest float at the price of
    the smallest one has no size at all. *)
Lemma size_above_exact_floor :
  (Py.gt (Py.of_decimal 5 1) Py.fzero = true
   /\ Py.gt (Py.of_decimal 1 1) Py.fzero = true
   /\ all_in_size (Py.of_decimal 5 1) (Py.of_decimal 1 1) = Ok 5
   /\ exact_floor_div (Py.of_decimal 5 1) (Py.of_decimal 1 1) = Some 4)
  /\ (all_in_size (Py.of_Z 1) (Py.of_decimal 1 1) = Ok 10
      /\ exact_floor_div (Py.of_Z 1) (Py.of_decimal 1 1) = Some 9)
  /\ (Py.gt (SFmax_float Py.prec Py.emax) Py.fzero = true
      /\ Py.gt (S754_finite false 1 (-1074)) Py.fzero = true
      /\ all_in_size (SFmax_float Py.prec Py.emax) (S754_finite false 1 (-1074))
         = Raise Py.OverflowError).
Proof. vm_compute. repeat split; reflexivity. Qed.

(** C3, amended: for positive cash and price whose binary64 quotient is
    finite, the size computed at order creation is the floor of that
    rounded quotient; for finite cash and price and a size below [2^53]
    it is the floor of the exact quotient or one more.  Cash 100 at price
    33 gives 3 and cash 0 at price 10 gives 0. *)
Theorem all_in_size_is_floor_of_rounded (cash price : float)
    (Hcash : Py.gt cash Py.fzero = true)
    (Hprice : Py.gt price Py.fzero = true) :
  (is_finite (SFdiv Py.prec Py.emax cash price) = true ->
     exists n, all_in_size cash price = Ok n
               /\ floor (SFdiv Py.prec Py.emax cash price) = Ok n)
  /\ (forall n, all_in_size cash price = Ok n ->
       is_finite cash = true -> is_finite price = true -> n < 2 ^ 53 ->
       exists E, exact_floor_div cash price = Some E /\ E <= n <= E + 1)
  /\ all_in_size (Py.of_Z 100) (Py.of_Z 33) = Ok 3
  /\ all_in_size (Py.of_Z 0) (Py.of_Z 10) = Ok 0.
Proof.
  split; [ | split; [ | split; vm_compute; reflexivity ] ].
  - intros Hfin.
    assert (Hsize : exists n, all_in_size cash price = Ok n).
    { unfold all_in_size, Py.truediv.
      rewrite (gt_zero_not_eq_zero price Hprice). cbn [Py.rbind].
      destruct (SFdiv Py.prec Py.emax cash price); try discriminate Hfin;
        eexists; reflexivity. }
    destruct Hsize as [n Hsize]. exists n. split; [ exact Hsize | ].
    apply (size_of_positive_operands cash price n Hcash Hprice Hsize).
  - intros n Hsize Fcash Fprice Hn.
    now apply (size_of_positive_operands cash price n Hcash Hprice Hsize).
Qed.

Lemma all_in_size_is_floor_of_rounded_witness :
  (exists n, all_in_size (Py.of_decimal 5 1) (Py.of_decimal 1 1) = Ok n
             /\ floor (SFdiv Py.prec Py.emax (Py.of_decimal 5 1) (Py.of_decimal 1 1))
                = Ok n)
  /\ (exists E, exact_floor_div (Py.of_decimal 5 1) (Py.of_decimal 1 1) = Some E
                /\ E <= 5 <= E + 1).
Proof.
  split.
  - refine (proj1 (all_in_size_is_floor_of_rounded
                     (Py.of_decimal 5 1) (Py.of_decimal 1 1) _ _) _);
      reflexivity.
  - refine (proj1 (proj2 (all_in_size_is_floor_of_rounded
                            (Py.of_decimal 5 1) (Py.of_decimal 1 1) _ _))
              5 _ _ _ _);
      reflexivity.
Defined.

(* ================================================================= *)
(** ** [next_open] of the long-only strategy, case by case *)

Section LongNextOpenCases.
Context {B : Type} `{Broker B} `{FloatStr}.

(** C2, amended: the long-only [next_open].  Flat with a bullish signal:
    when [int(cash/open)] has the value [n], the journal grows by the LONG
    CREATED line and exactly one request, BUY [n]; when it raises,
    [next_open] raises the same exception and nothing is printed or
    requested.  For positive cash and open price [n] is the floor of the
    rounded binary64 quotient, and for finite operands and [n] below
    [2^53] the floor of the exact quotient or one more.  Long with a
    bearish signal: the journal grows by the exit line and exactly one
    request, SELL of the held size.  Flat without a bullish signal, or
    long without a bearish one: the state, journal included, is
    unchanged. *)
Theorem long_only_next_open (s : Strategy B) :
  let cash := getcash (broker s) in
  let held := position_size (broker s) in
  let bar := data0 s in
  (held = 0 -> Py.gt (bar_predicted bar) Py.fzero = true ->
   (forall n, all_in_size cash (bar_open bar) = Ok n ->
      LongStrat.next_open s
      = Ok (tt, after s (react (Buy n) (broker s))
                  [Print (isodate bar ++ ", " ++ created_msg "LONG" n cash bar);
                   Submit (Buy n)])
      /\ (Py.gt cash Py.fzero = true -> Py.gt (bar_open bar) Py.fzero = true ->
          floor (SFdiv Py.prec Py.emax cash (bar_open bar)) = Ok n
          /\ (is_finite cash = true -> is_finite (bar_open bar) = true ->
              n < 2 ^ 53 ->
              exists E, exact_floor_div cash (bar_open bar) = Some E
                        /\ E <= n <= E + 1)))
   /\ (forall e, all_in_size cash (bar_open bar) = Raise e ->
         LongStrat.next_open s = Raise e))
  /\ (0 < held -> Py.lt (bar_predicted bar) Py.fzero = true ->
      LongStrat.next_open s
      = Ok (tt, after s (react (Sell held) (broker s))
                  [Print (isodate bar ++ ", SELL CREATED --- Size: " ++ Py.str_int held);
                   Submit (Sell held)]))
  /\ (held = 0 -> Py.gt (bar_predicted bar) Py.fzero = false ->
      LongStrat.next_open s = Ok (tt, s))
  /\ (0 < held -> Py.lt (bar_predicted bar) Py.fzero = false ->
      LongStrat.next_open s = Ok (tt, s)).
Proof.
  intros cash held bar.
  split; [ | split; [ | split ] ].
  - intros Hflat Hbull. split.
    + intros n Hsize. split.
      * rewrite (long_entry s Hflat Hbull). fold cash bar. now rewrite Hsize.
      * intros Hcash Hopen.
        apply (size_of_positive_operands cash (bar_open bar) n Hcash Hopen Hsize).
    + intros e Hsize.
      rewrite (long_entry s Hflat Hbull). fold cash bar. now rewrite Hsize.
  - intros Hheld Hbear. apply long_exit; [ lia | exact Hbear ].
  - intros Hflat Hbull. now apply long_idle_flat.
  - intros Hheld Hbear. apply long_idle_held; [ lia | exact Hbear ].
Qed.

End LongNextOpenCases.

Lemma long_only_next_open_witness :
  (LongStrat.next_open (flat_100 bar_bullish)
   = Ok (tt, mkStrategy None None None (mkAccount (Py.of_Z 100) 0) bar_bullish
               [Print "2024-01-02, LONG CREATED --- Size: 3, Cash: 100.00, Open: 33.0, Close: 34.0";
                Submit (Buy 3)])
   /\ floor (SFdiv Py.prec Py.emax (Py.of_Z 100) (Py.of_Z 33)) = Ok 3
   /\ exists E, exact_floor_div (Py.of_Z 100) (Py.of_Z 33) = Some E /\ E <= 3 <= E + 1)
  /\ LongStrat.next_open flat_overflow = Raise Py.OverflowError
  /\ LongStrat.next_open (long_5 bar_bearish)
     = Ok (tt, mkStrategy None None None (mkAccount (Py.of_Z 100) 5) bar_bearish
                 [Print "2024-01-03, SELL CREATED --- Size: 5"; Submit (Sell 5)])
  /\ LongStrat.next_open (flat_100 bar_bearish) = Ok (tt, flat_100 bar_bearish)
  /\ LongStrat.next_open (long_5 bar_bullish) = Ok (tt, long_5 bar_bullish).
Proof.
  split; [ | split; [ | split; [ | split ] ] ].
  - destruct (long_only_next_open (flat_100 bar_bullish)) as [Hentry _].
    destruct (Hentry ltac:(reflexivity) ltac:(reflexivity)) as [Hbuy _].
    destruct (Hbuy 3 ltac:(reflexivity)) as [Hrun Hfloor].
    destruct (Hfloor ltac:(reflexivity) ltac:(reflexivity)) as [Hrounded Hexact].
    split; [ exact Hrun | split; [ exact Hrounded | ] ].
    apply Hexact; reflexivity.
  - refine (proj2 (proj1 (long_only_next_open flat_overflow) _ _)
              Py.OverflowError _);
      reflexivity.
  - refine (proj1 (proj2 (long_only_next_open (long_5 bar_bearish))) _ _);
      reflexivity.
  - refine (proj1 (proj2 (proj2 (long_only_next_open (flat_100 bar_bearish)))) _ _);
      reflexivity.
  - refine (proj2 (proj2 (proj2 (long_only_next_open (long_5 bar_bullish)))) _ _);
      reflexivity.
Defined.

(** C2 as stated fails in its BUY quantity.  Flat and bullish with cash
    0.5 at an open price of 0.1, exactly one BUY is requested, for 5, while
    [floor(cash/open)] is 4.  With cash -100 at 33 the BUY is for -3 while
    the floor is -4.  With the largest float as cash at the smallest as
    open price no BUY is requested at all: [next_open] raises. *)
Lemma long_only_buy_not_floor :
  (@LongStrat.next_open Account queueing str_tenth flat_half
   = Ok (tt, mkStrategy None None None (mkAccount (Py.of_decimal 5 1) 0) bar_tenth
               [Print "2024-01-08, LONG CREATED --- Size: 5, Cash: 0.50, Open: 0.1, Close: 0.1";
                Submit (Buy 5)])
   /\ exact_floor_div (getcash (broker flat_half)) (bar_open (data0 flat_half))
      = Some 4)
  /\ (LongStrat.next_open flat_minus_100
      = Ok (tt, mkStrategy None None None (mkAccount (Py.of_Z (-100)) 0) bar_bullish
                  [Print "2024-01-02, LONG CREATED --- Size: -3, Cash: -100.00, Open: 33.0, Close: 34.0";
                   Submit (Buy (-3))])
      /\ exact_floor_div (getcash (broker flat_minus_100))
                         (bar_open (data0 flat_minus_100)) = Some (-4))
  /\ LongStrat.next_open flat_overflow = Raise Py.OverflowError.
Proof. vm_compute. repeat split; reflexivity. Qed.

(* ================================================================= *)
(** ** The position after a long-only exit *)

Section LongExit.
Context {B : Type} `{Broker B} `{FloatStr}.

(** X15: at a broker that carries a SELL of a positive size out by
    subtracting it from the position, the long-only exit from a long
    position returns and leaves the position flat: the SELL is for the
    whole held size. *)
Theorem long_exit_flattens (s : Strategy B)
    (sell_subtracts :
       forall n b, 0 < n -> position_size (react (Sell n) b) = position_size b - n)
    (Hheld : 0 < position_size (broker s))
    (Hbear : Py.lt (bar_predicted (data0 s)) Py.fzero = true) :
  exists s', LongStrat.next_open s = Ok (tt, s')
             /\ position_size (broker s') = 0.
Proof.
  eexists. split; [ apply long_exit; [ lia | exact Hbear ] | ].
  cbn [after broker]. rewrite sell_subtracts by exact Hheld. lia.
Qed.

End LongExit.

Lemma long_exit_flattens_witness :
  exists s', LongStrat.next_open long_10_settling = Ok (tt, s')
             /\ position_size (broker s') = 0.
Proof.
  apply (@long_exit_flattens Till settling integral_prices long_10_settling
           (fun n b _ => eq_refl)).
  - reflexivity.
  - reflexivity.
Defined.
